(** * The UI smoke-verification scripts of jules-scratch/verification

    The four Python scripts drive a browser through Playwright.  The browser
    is outside the program: every call into it either comes back or raises.
    The embedding therefore runs each script against a [driver], an arbitrary
    function that decides, from everything that happened so far, whether the
    next call raises; a run yields the events it produced (calls with their
    result, printed lines) and the way control left the code. *)

From Stdlib Require Import String List ZArith Bool Lia DecimalString.
Import ListNotations.
Open Scope string_scope.
Open Scope Z_scope.

(** ** Data *)

(** Locators are built lazily by [page.get_by_role], [page.get_by_text] and
    [Locator.locator]: building one never touches the browser. *)
Inductive locator : Type :=
| get_by_role (role name : string)
| get_by_text (text : string)
| sub_locator (base : locator) (selector : string).

(** What a screenshot is taken of: [page.screenshot] or [locator.screenshot]. *)
Inductive shot_target : Type :=
| of_page
| of_locator (l : locator).

(** Browser objects, numbered in the order [launch] creates them. *)
Definition handle : Type := nat.

(** The calls that reach the browser.  A keyword argument the call site does
    not pass is [None]. *)
Inductive call : Type :=
| sync_playwright_enter
| sync_playwright_exit
| launch (b : handle) (headless : option bool)
| new_page (b : handle)
| goto (url : string) (timeout : option Z)
| to_be_visible (l : locator) (timeout : option Z)
| to_be_enabled (l : locator) (timeout : option Z)
| click (l : locator)
| wait_for_timeout (ms : Z)
| screenshot (t : shot_target) (path : string)
| close (b : handle).

(** What a failing call raises: Playwright's [Error] and [TimeoutError] and
    the [AssertionError] of [expect], all of them instances of [Exception];
    [message] is what [str(e)] gives. *)
Record exn : Type := Exception { message : string }.

Inductive event : Type :=
| Called (c : call) (r : option exn)
| Printed (line : string).

Definition history : Type := list event.

(** [drv h c] is [None] when call [c], made after [h], comes back, and
    [Some e] when it raises [e]. *)
Definition driver : Type := history -> call -> option exn.

(** ** Control flow *)

(** How a block of statements is left. *)
Inductive res (A : Type) : Type :=
| Val (a : A)
| Ret
| Exc (e : exn).
Arguments Val {A} a.
Arguments Ret {A}.
Arguments Exc {A} e.

(** A block reads the history and yields the events it adds to it. *)
Definition M (A : Type) : Type := history -> list event * res A.

Definition ret {A : Type} (a : A) : M A := fun _ => ([], Val a).

Definition bind {A B : Type} (m : M A) (k : A -> M B) : M B :=
  fun h =>
    let (e1, r) := m h in
    match r with
    | Val a => let (e2, r') := k a (h ++ e1)%list in ((e1 ++ e2)%list, r')
    | Ret => (e1, Ret)
    | Exc e => (e1, Exc e)
    end.

Declare Scope py_scope.
Delimit Scope py_scope with py.
Notation "x <- m ;; k" := (bind m (fun x => k))
  (at level 61, m at next level, right associativity) : py_scope.
Notation "m ;; k" := (bind m (fun _ => k))
  (at level 61, right associativity) : py_scope.
Open Scope py_scope.

(** [return] *)
Definition return_ : M unit := fun _ => ([], Ret).

(** [print(line)] *)
Definition print (line : string) : M unit := fun _ => ([Printed line], Val tt).

(** A call into the browser. *)
Definition invoke (drv : driver) (c : call) : M unit :=
  fun h =>
    ([Called c (drv h c)],
     match drv h c with
     | None => Val tt
     | Some e => Exc e
     end).

Definition is_launch (ev : event) : bool :=
  match ev with
  | Called (launch _ _) _ => true
  | _ => false
  end.

(** The number the next browser object gets. *)
Definition fresh (h : history) : handle := length (filter is_launch h).

(** [p.chromium.launch(...)]: the call, and the new browser object. *)
Definition chromium_launch (drv : driver) (headless : option bool) : M handle :=
  fun h =>
    let b := fresh h in
    ([Called (launch b headless) (drv h (launch b headless))],
     match drv h (launch b headless) with
     | None => Val b
     | Some e => Exc e
     end).

(** [try: body / except Exception as e: handler e] *)
Definition try_except {A : Type} (body : M A) (handler : exn -> M A) : M A :=
  fun h =>
    let (e1, r) := body h in
    match r with
    | Exc e => let (e2, r') := handler e (h ++ e1)%list in ((e1 ++ e2)%list, r')
    | _ => (e1, r)
    end.

(** [try: body / finally: fin].  The [finally] block runs however [body] is
    left; what leaves [fin] other than normally replaces [body]'s result. *)
Definition try_finally {A : Type} (body : M A) (fin : M unit) : M A :=
  fun h =>
    let (e1, r) := body h in
    let (e2, rf) := fin (h ++ e1)%list in
    ((e1 ++ e2)%list,
     match rf with
     | Val _ => r
     | Ret => Ret
     | Exc e => Exc e
     end).

(** [with sync_playwright() as p: body].  [__exit__] gives [None], so an
    exception of [body] goes on after it. *)
Definition with_sync_playwright {A : Type} (drv : driver) (body : M A) : M A :=
  invoke drv sync_playwright_enter ;;
  try_finally body (invoke drv sync_playwright_exit).

(** [for x in xs: body x] *)
Fixpoint for_each {A : Type} (xs : list A) (body : A -> M unit) : M unit :=
  match xs with
  | [] => ret tt
  | x :: xs' => body x ;; for_each xs' body
  end.

(** Calling a function whose body is [body]: a [return] ends the call. *)
Definition call_fn (body : M unit) : M unit :=
  fun h =>
    let (e1, r) := body h in
    (e1, match r with
         | Ret => Val tt
         | _ => r
         end).

(** [str(n)] for an [int], as an f-string formats it. *)
Definition str (n : Z) : string := NilZero.string_of_int (Z.to_int n).

(** ** verify_main_page_v2.py *)
Module VerifyMainPageV2.

Definition ports_to_try : list Z := [5173; 5174; 5175; 5176; 5177].

Definition heading : locator := get_by_role "heading" "Zinseszins-Simulation".
Definition button : locator := get_by_role "button" "🔄 Neu berechnen".
Definition shot_path : string := "jules-scratch/verification/verification.png".

Definition url (port : Z) : string := "http://localhost:" ++ str port.
Definition trying (port : Z) : string :=
  "Trying to connect to port " ++ str port ++ "...".
Definition taken (port : Z) : string :=
  "Screenshot taken successfully on port " ++ str port ++ ".".
Definition could_not (port : Z) (e : exn) : string :=
  "Could not connect to port " ++ str port ++ ": " ++ message e.
Definition failed_all : string := "Failed to connect to any of the ports.".

Section WithDriver.
Variable drv : driver.

(** Lines 9-22, the [try] block. *)
Definition steps (port : Z) (browser : handle) : M unit :=
  print (trying port) ;;
  invoke drv (goto (url port) (Some 10000)) ;;
  invoke drv (to_be_visible heading (Some 10000)) ;;
  invoke drv (to_be_enabled button (Some 10000)) ;;
  invoke drv (wait_for_timeout 2000) ;;
  invoke drv (screenshot of_page shot_path) ;;
  print (taken port) ;;
  invoke drv (close browser) ;;
  return_.

(** Lines 6-26, the body of the [for] loop. *)
Definition attempt (port : Z) : M unit :=
  with_sync_playwright drv
    (browser <- chromium_launch drv (Some true) ;;
     invoke drv (new_page browser) ;;
     try_finally
       (try_except (steps port browser) (fun e => print (could_not port e)))
       (invoke drv (close browser))).

(** Lines 5-28 over any list of ports. *)
Definition run_with (ports : list Z) : M unit :=
  for_each ports attempt ;;
  print failed_all.

(** Lines 3-28. *)
Definition run_body : M unit := run_with ports_to_try.
Definition run : M unit := call_fn run_body.

End WithDriver.
End VerifyMainPageV2.

(** ** verify_main_page.py *)
Module VerifyMainPage.

Definition heading : locator := get_by_role "heading" "Zinseszins-Simulation".
Definition button : locator := get_by_role "button" "🔄 Neu berechnen".
Definition shot_path : string := "jules-scratch/verification/verification.png".
Definition taken : string := "Screenshot taken successfully.".
Definition an_error (e : exn) : string := "An error occurred: " ++ message e.

Section WithDriver.
Variable drv : driver.

(** Lines 7-21, the [try] block. *)
Definition steps : M unit :=
  invoke drv (goto "http://localhost:5174" (Some 30000)) ;;
  invoke drv (to_be_visible heading (Some 15000)) ;;
  invoke drv (to_be_enabled button (Some 15000)) ;;
  invoke drv (wait_for_timeout 2000) ;;
  invoke drv (screenshot of_page shot_path) ;;
  print taken.

(** Lines 4-25. *)
Definition run_body : M unit :=
  with_sync_playwright drv
    (browser <- chromium_launch drv (Some true) ;;
     invoke drv (new_page browser) ;;
     try_finally
       (try_except steps (fun e => print (an_error e)))
       (invoke drv (close browser))).

Definition run : M unit := call_fn run_body.

End WithDriver.
End VerifyMainPage.

(** ** verify_dynamic_withdrawal.py *)
Module VerifyDynamicWithdrawal.

Definition entnahme_panel_header : locator := get_by_role "button" "💸 Entnahme".
Definition dynamic_strategy_radio : locator :=
  get_by_role "radio" "Dynamische Entnahme".
Definition dynamic_panel_text : locator :=
  get_by_text "Regeln für dynamische Anpassung:".
Definition entnahme_panel : locator := sub_locator entnahme_panel_header "..".
Definition shot_path : string :=
  "jules-scratch/verification/dynamic_withdrawal_ui.png".

Section WithDriver.
Variable drv : driver.

(** Lines 4-28, the body of [run(playwright)]. *)
Definition run_body : M unit :=
  browser <- chromium_launch drv None ;;
  invoke drv (new_page browser) ;;
  invoke drv (goto "http://localhost:5173/" None) ;;
  invoke drv (click entnahme_panel_header) ;;
  invoke drv (click dynamic_strategy_radio) ;;
  invoke drv (to_be_visible dynamic_panel_text None) ;;
  invoke drv (screenshot (of_locator entnahme_panel) shot_path) ;;
  invoke drv (close browser).

Definition run : M unit := call_fn run_body.

(** Lines 30-31, the script itself. *)
Definition main : M unit := with_sync_playwright drv run.

End WithDriver.
End VerifyDynamicWithdrawal.

(** ** verify_fixes.py *)
Module VerifyFixes.

Definition shot_path : string := "jules-scratch/verification/verification.png".

Section WithDriver.
Variable drv : driver.

(** Lines 8-11, the body of [test_screenshot(page)]. *)
Definition test_screenshot : M unit :=
  call_fn
    (invoke drv (goto "http://localhost:5173" None) ;;
     invoke drv (screenshot of_page shot_path)).

End WithDriver.
End VerifyFixes.

(** ** What a run shows *)

Definition events {A : Type} (x : list event * res A) : list event := fst x.
Definition outcome {A : Type} (x : list event * res A) : res A := snd x.

(** The exit status of the interpreter: an exception nobody caught gives 1. *)
Definition exit_status {A : Type} (r : res A) : Z :=
  match r with
  | Exc _ => 1
  | _ => 0
  end.

(** The steps of a verification pass: navigation, readiness waits,
    interactions, the settling delay and the capture. *)
Definition is_step (c : call) : bool :=
  match c with
  | goto _ _ | to_be_visible _ _ | to_be_enabled _ _
  | click _ | wait_for_timeout _ | screenshot _ _ => true
  | _ => false
  end.

Definition step_failed (ev : event) : bool :=
  match ev with
  | Called c (Some _) => is_step c
  | _ => false
  end.

(** The files written: the paths of the screenshot calls that came back. *)
Fixpoint screenshots (evs : list event) : list string :=
  match evs with
  | [] => []
  | Called (screenshot _ p) None :: evs' => p :: screenshots evs'
  | _ :: evs' => screenshots evs'
  end.

Definition is_launch_call (ev : event) : bool := is_launch ev.

Definition is_close_call (ev : event) : bool :=
  match ev with
  | Called (close _) _ => true
  | _ => false
  end.

Definition is_enter_call (ev : event) : bool :=
  match ev with
  | Called sync_playwright_enter _ => true
  | _ => false
  end.

Definition is_printed (ev : event) : bool :=
  match ev with
  | Printed _ => true
  | _ => false
  end.

Definition count (p : event -> bool) (evs : list event) : nat :=
  length (filter p evs).

(** The calls made, in order. *)
Fixpoint calls (evs : list event) : list call :=
  match evs with
  | [] => []
  | Called c _ :: evs' => c :: calls evs'
  | Printed _ :: evs' => calls evs'
  end.

(** The browsers open after an event, given those open before it. *)
Definition live_step (open : list handle) (ev : event) : list handle :=
  match ev with
  | Called (launch b _) None => b :: open
  | Called (close b) None => remove Nat.eq_dec b open
  | _ => open
  end.

Definition live (evs : list event) (open : list handle) : list handle :=
  fold_left live_step evs open.

(** The largest number of browsers open at any moment of [evs]. *)
Fixpoint peak (evs : list event) (open : list handle) : nat :=
  match evs with
  | [] => length open
  | ev :: evs' => Nat.max (length open) (peak evs' (live_step open ev))
  end.

(** The suspension points: navigation, the readiness waits and the settling
    delay. *)
Definition is_suspension (c : call) : bool :=
  match c with
  | goto _ _ | to_be_visible _ _ | to_be_enabled _ _ | wait_for_timeout _ => true
  | _ => false
  end.

(** The bound a suspension point passes at its call site, in milliseconds. *)
Definition timeout_of (c : call) : option Z :=
  match c with
  | goto _ t | to_be_visible _ t | to_be_enabled _ t => t
  | wait_for_timeout ms => Some ms
  | _ => None
  end.

(** A suspension point that passes no bound: the driver's default applies. *)
Definition left_to_default (c : call) : bool :=
  is_suspension c && match timeout_of c with Some _ => false | None => true end.

(** Every suspension point among the calls of [evs] passes a bound. *)
Definition explicit_timeouts (evs : list event) : Prop :=
  forallb (fun c => negb (left_to_default c)) (calls evs) = true.

(** [c] is no suspension point, or one that passes a bound of at most
    [limit] milliseconds. *)
Definition bounded_by (limit : Z) (c : call) : bool :=
  negb (is_suspension c) ||
  match timeout_of c with
  | Some ms => (0 <? ms) && (ms <=? limit)
  | None => false
  end.

(** One browser launched and one [close] call made. *)
Definition opened_and_closed_once (evs : list event) : Prop :=
  count is_launch_call evs = 1%nat /\ count is_close_call evs = 1%nat.

(** A failed step was printed by the program and the process still ends
    with the status of success. *)
Definition recovered_locally (x : list event * res unit) : Prop :=
  existsb step_failed (events x) = true ->
  existsb is_printed (events x) = true /\ exit_status (outcome x) = 0.

(** Readiness checks and interactions. *)
Definition is_check_or_interaction (c : call) : bool :=
  match c with
  | to_be_visible _ _ | to_be_enabled _ _ | click _ => true
  | _ => false
  end.

(** Session management never raises: entering and leaving Playwright,
    launching, opening the page, closing. *)
Definition management_ok (drv : driver) : Prop :=
  forall h c, is_step c = false -> drv h c = None.

(** Releasing the session never raises. *)
Definition release_ok (drv : driver) : Prop :=
  forall h, (forall b, drv h (close b) = None) /\ drv h sync_playwright_exit = None.

(** The Session Runner invocations of the loop of verify_main_page_v2.py:
    [sessions drv tried h evs r] when the loop body ran once for each port of
    [tried], in that order, starting after [h]; every invocation but the last
    was left normally (its exception caught, the loop going on), the last one
    was left with [r]; [evs] are the events of all of them. *)
Inductive sessions (drv : driver) :
  list Z -> history -> list event -> res unit -> Prop :=
| sessions_last port h evs r :
    VerifyMainPageV2.attempt drv port h = (evs, r) ->
    sessions drv [port] h evs r
| sessions_next port tried h e1 evs r :
    VerifyMainPageV2.attempt drv port h = (e1, Val tt) ->
    sessions drv tried (h ++ e1)%list evs r ->
    sessions drv (port :: tried) h (e1 ++ evs)%list r.


(** The steps of the [try] block of verify_main_page_v2.py, in the order of
    its lines. *)
Definition declared_steps (port : Z) : list call :=
  [ goto (VerifyMainPageV2.url port) (Some 10000);
    to_be_visible VerifyMainPageV2.heading (Some 10000);
    to_be_enabled VerifyMainPageV2.button (Some 10000);
    wait_for_timeout 2000;
    screenshot of_page VerifyMainPageV2.shot_path ].


(** ** Drivers to run the scripts on *)

(** The application is up and everything works. *)
Definition all_ok : driver := fun _ _ => None.

(** Every call that [bad] picks raises [e]; the others come back. *)
Definition raising (bad : call -> bool) (e : exn) : driver :=
  fun _ c => if bad c then Some e else None.

Definition is_goto_to (u : string) (c : call) : bool :=
  match c with
  | goto u' _ => String.eqb u u'
  | _ => false
  end.

Definition is_click (c : call) : bool :=
  match c with
  | click _ => true
  | _ => false
  end.

Definition is_to_be_visible (c : call) : bool :=
  match c with
  | to_be_visible _ _ => true
  | _ => false
  end.


Definition timeout_error : exn := Exception "Timeout 10000ms exceeded.".
Definition not_visible : exn := Exception "Locator expected to be visible".
Definition not_found : exn := Exception "Timeout 30000ms exceeded.".

(** The panel button cannot be clicked. *)
Definition no_panel : driver := raising is_click not_found.

(** The text of the dynamic panel never shows. *)
Definition no_panel_text : driver := raising is_to_be_visible not_visible.

(** Nothing listens on port 5173; the application is served on 5174. *)
Definition only_5174 : driver :=
  raising (is_goto_to "http://localhost:5173") timeout_error.

(** Nothing listens on any port. *)
Definition nothing_up : driver :=
  raising (fun c => match c with goto _ _ => true | _ => false end) timeout_error.

(** ** More to observe, and more drivers *)

(** The lines printed, in order. *)
Fixpoint printed (evs : list event) : list string :=
  match evs with
  | [] => []
  | Printed line :: evs' => line :: printed evs'
  | Called _ _ :: evs' => printed evs'
  end.

Definition is_exit_call (ev : event) : bool :=
  match ev with
  | Called sync_playwright_exit _ => true
  | _ => false
  end.

(** The bounds passed at the call sites of the suspension points of [evs],
    added up: the longest the calls of [evs] may have waited on them, in
    milliseconds. *)
Fixpoint total_timeout (evs : list event) : Z :=
  match evs with
  | [] => 0
  | Called c _ :: evs' =>
      match timeout_of c with
      | Some ms => ms
      | None => 0
      end + total_timeout evs'
  | Printed _ :: evs' => total_timeout evs'
  end.

(** A call that raised. *)
Definition raised (ev : event) : bool :=
  match ev with
  | Called _ (Some _) => true
  | _ => false
  end.

Definition is_launch_of (c : call) : bool :=
  match c with
  | launch _ _ => true
  | _ => false
  end.

Definition is_new_page (c : call) : bool :=
  match c with
  | new_page _ => true
  | _ => false
  end.

Definition is_goto (c : call) : bool :=
  match c with
  | goto _ _ => true
  | _ => false
  end.

Definition no_executable : exn := Exception "Executable doesn't exist".
Definition connection_lost : exn := Exception "Connection closed".

(** The browser cannot be launched. *)
Definition no_browser : driver := raising is_launch_of no_executable.

(** The browser starts but cannot open a page. *)
Definition no_page : driver := raising is_new_page connection_lost.

(** The heading never shows. *)
Definition no_heading : driver := raising is_to_be_visible not_visible.

(** The server does not answer. *)
Definition no_server : driver := raising is_goto timeout_error.

(** The first [browser.close()] of a run raises, the later ones come back. *)
Definition close_raises_once : driver :=
  fun h c =>
    match c with
    | close _ => if existsb is_close_call h then None else Some connection_lost
    | _ => None
    end.




(** An attempt is left by [return] exactly when it wrote the screenshot. *)
Definition captured_iff_written (x : list event * res unit) : Prop :=
  outcome x = Ret <-> screenshots (events x) = [VerifyMainPageV2.shot_path].

(** A run of verify_main_page_v2.py in which every port of [ports_to_try]
    had a failed step and nothing was captured yields [None], after the
    overall failure line. *)
Definition exhausted_normally (x : list event * res unit) : Prop :=
  count step_failed (events x) = length VerifyMainPageV2.ports_to_try ->
  screenshots (events x) = [] ->
  outcome x = Val tt /\
  In VerifyMainPageV2.failed_all (printed (events x)).

(** The server does not answer on any port, and closing the fifth browser
    raises. *)
Definition last_close_raises : driver :=
  fun _ c =>
    match c with
    | goto _ _ => Some timeout_error
    | close b => if Nat.eqb b 4 then Some connection_lost else None
    | _ => None
    end.

(** ** Symbolic execution *)

Open Scope list_scope.

Arguments VerifyMainPageV2.trying : simpl never.
Arguments VerifyMainPageV2.taken : simpl never.
Arguments VerifyMainPageV2.could_not : simpl never.
Arguments VerifyMainPageV2.url : simpl never.
Arguments VerifyMainPage.an_error : simpl never.
Arguments fresh : simpl never.

(** Split on the result of the next call: the one whose history holds no
    unresolved call. *)
Ltac next_call drv :=
  match goal with
  | |- context [drv ?h ?c] =>
      lazymatch h with
      | context [drv] => fail
      | _ => destruct (drv h c) eqn:?
      end
  end.

Ltac unfold_py :=
  cbv beta iota delta
    [with_sync_playwright try_finally try_except bind invoke chromium_launch
     print return_ ret call_fn events outcome];
  cbn [app fst snd].

Ltac exec drv := unfold_py; repeat (next_call drv; unfold_py).

Ltac unfold_scripts :=
  unfold VerifyMainPageV2.attempt, VerifyMainPageV2.steps,
    VerifyMainPage.run, VerifyMainPage.run_body, VerifyMainPage.steps,
    VerifyDynamicWithdrawal.main, VerifyDynamicWithdrawal.run,
    VerifyDynamicWithdrawal.run_body, VerifyFixes.test_screenshot.

Ltac run_script drv t :=
  let evs := fresh "evs" in
  let r := fresh "r" in
  let E := fresh "E" in
  destruct t as [evs r] eqn:E; revert E; unfold_scripts; exec drv;
  intros E; injection E as <- <-.

Ltac same_handle :=
  repeat match goal with
  | |- context [Nat.eq_dec ?a ?a] => destruct (Nat.eq_dec a a); [|congruence]
  end.

Ltac leaf := cbn; same_handle; cbn.

Ltac settle :=
  leaf; repeat split; intros; try lia; try reflexivity; try discriminate;
  try solve [intuition (try discriminate; try congruence; try lia)].

(** Take apart [In ev [e1; ...; en]]. *)
Ltac pick :=
  repeat match goal with
  | H : _ \/ _ |- _ => destruct H
  | H : False |- _ => destruct H
  | H : Called _ _ = Called _ _ |- _ => inversion H; clear H; subst
  | H : Printed _ = Called _ _ |- _ => discriminate H
  | H : In _ (_ :: _) |- _ => cbn [In] in H
  | H : In _ [] |- _ => destruct H
  end.

(** A branch in which a call raises that the assumptions say never does. *)
Ltac absurd_call :=
  match goal with
  | Hm : management_ok ?d, H : ?d ?h ?c = Some _ |- _ =>
      rewrite (Hm h c) in H by reflexivity; discriminate H
  | Hr : release_ok ?d, H : ?d ?h (close ?b) = Some _ |- _ =>
      rewrite (proj1 (Hr h) b) in H; discriminate H
  | Hr : release_ok ?d, H : ?d ?h sync_playwright_exit = Some _ |- _ =>
      rewrite (proj2 (Hr h)) in H; discriminate H
  end.

(** From [a :: l = pre ++ x :: post], walk down the list: at each position
    either [x] is the event there or the split lies further on. *)
Ltac walk H :=
  lazymatch type of H with
  | [] = ?pre ++ _ :: _ => destruct pre; discriminate H
  | ?a :: _ = ?pre ++ _ :: _ =>
      let H1 := fresh "Hhead" in
      let H2 := fresh "Htail" in
      destruct pre; cbn [app] in H;
      pose proof (f_equal (hd a) H) as H1;
      pose proof (f_equal (@tl event) H) as H2;
      cbn [hd tl] in H1, H2; clear H;
      [ try discriminate H1 | subst; walk H2 ]
  end.

(** ** General facts *)

Lemma count_app (p : event -> bool) (e1 e2 : list event) :
  count p (e1 ++ e2) = (count p e1 + count p e2)%nat.
Proof. unfold count. now rewrite filter_app, length_app. Qed.

Lemma screenshots_app (e1 e2 : list event) :
  screenshots (e1 ++ e2) = screenshots e1 ++ screenshots e2.
Proof.
  induction e1 as [|ev e1 IH]; [reflexivity|].
  destruct ev as [c [e|]|line]; cbn [app screenshots]; try exact IH;
    destruct c; cbn [app]; now rewrite ?IH.
Qed.

Lemma calls_app (e1 e2 : list event) :
  calls (e1 ++ e2) = calls e1 ++ calls e2.
Proof.
  induction e1 as [|[c r|line] e1 IH]; cbn [app calls]; now rewrite ?IH.
Qed.

Lemma live_app (e1 e2 : list event) (open : list handle) :
  live (e1 ++ e2) open = live e2 (live e1 open).
Proof. unfold live. apply fold_left_app. Qed.

Lemma peak_app (e1 e2 : list event) (open : list handle) :
  peak (e1 ++ e2) open = Nat.max (peak e1 open) (peak e2 (live e1 open)).
Proof.
  revert open. induction e1 as [|ev e1 IH]; intros open; cbn [app peak].
  - unfold live; cbn [fold_left]. destruct e2; cbn [peak]; lia.
  - rewrite IH. unfold live; cbn [fold_left]. lia.
Qed.

Lemma call_fn_events (body : M unit) (h : history) :
  events (call_fn body h) = events (body h).
Proof. unfold call_fn, events. now destruct (body h). Qed.

Lemma all_ok_management : management_ok all_ok.
Proof. intros h c _. reflexivity. Qed.

Lemma all_ok_release : release_ok all_ok.
Proof. intros h. split; reflexivity. Qed.

Lemma nothing_up_management : management_ok nothing_up.
Proof. intros h c Hc. destruct c; try reflexivity; discriminate Hc. Qed.

Lemma only_5174_release : release_ok only_5174.
Proof. intros h. split; reflexivity. Qed.

(** ** The loop of verify_main_page_v2.py *)
Section Orchestrator.
Variable drv : driver.

Lemma run_with_cons (port : Z) (ports : list Z) (h : history) :
  VerifyMainPageV2.run_with drv (port :: ports) h =
  match VerifyMainPageV2.attempt drv port h with
  | (e1, Val _) =>
      let (e2, r) := VerifyMainPageV2.run_with drv ports (h ++ e1) in
      (e1 ++ e2, r)
  | (e1, Ret) => (e1, Ret)
  | (e1, Exc e) => (e1, Exc e)
  end.
Proof.
  unfold VerifyMainPageV2.run_with. cbn [for_each]. unfold bind.
  destruct (VerifyMainPageV2.attempt drv port h) as [e1 [[]| |e]];
    try reflexivity.
  destruct (for_each ports (VerifyMainPageV2.attempt drv) (h ++ e1))
    as [e2 [[]| |e]]; try reflexivity.
  unfold print. now rewrite <- !app_assoc.
Qed.

Lemma run_with_nil (h : history) :
  VerifyMainPageV2.run_with drv [] h =
  ([Printed VerifyMainPageV2.failed_all], Val tt).
Proof. reflexivity. Qed.


End Orchestrator.

(** C6. With no port to try, the loop of verify_main_page_v2.py runs its body
    not once: the run makes no call into the browser, prints the overall
    failure line and nothing else, and falls off the end of the function. *)
Theorem empty_candidates_exhausted_at_once (drv : driver) (h : history) :
  VerifyMainPageV2.run_with drv [] h =
    ([Printed VerifyMainPageV2.failed_all], Val tt) /\
  calls (events (VerifyMainPageV2.run_with drv [] h)) = [] /\
  count is_enter_call (events (VerifyMainPageV2.run_with drv [] h)) = 0%nat.
Proof. repeat split. Qed.


(** ** Sessions: launching and closing *)
Section Sessions.
Variable drv : driver.

Lemma attempt_sessions (port : Z) (h : history) :
  let evs := events (VerifyMainPageV2.attempt drv port h) in
  let r := outcome (VerifyMainPageV2.attempt drv port h) in
  (count is_launch_call evs <= 1)%nat /\
  (In (Called sync_playwright_enter None) evs ->
   count is_launch_call evs = 1%nat) /\
  (peak evs [] <= 1)%nat /\
  (forall b, In (Called (new_page b) None) evs ->
     (1 <= count is_close_call evs)%nat) /\
  (existsb step_failed evs = true -> count is_close_call evs = 1%nat) /\
  (r = Val tt \/ r = Ret -> live evs [] = []).
Proof.
  intros evs r; subst evs r.
  run_script drv (VerifyMainPageV2.attempt drv port h); settle.
Qed.

(** The loop never has two browsers open: an invocation that lets the loop
    go on has closed its own. *)
Lemma run_with_peak (ports : list Z) (h : history) :
  (peak (events (VerifyMainPageV2.run_with drv ports h)) [] <= 1)%nat.
Proof.
  revert h. induction ports as [|port ports IH]; intros h.
  - cbn. lia.
  - rewrite run_with_cons.
    destruct (attempt_sessions port h) as (_ & _ & Hpk & _ & _ & Hlv).
    destruct (VerifyMainPageV2.attempt drv port h) as [e1 [[]| |e]];
      unfold events, outcome in *; cbn [fst snd] in *; try exact Hpk.
    specialize (IH (h ++ e1)).
    destruct (VerifyMainPageV2.run_with drv ports (h ++ e1)) as [e2 r2].
    cbn [fst] in *. rewrite peak_app, Hlv by now left. lia.
Qed.

Lemma main_page_sessions (h : history) :
  let evs := events (VerifyMainPage.run drv h) in
  let r := outcome (VerifyMainPage.run drv h) in
  (count is_launch_call evs <= 1)%nat /\
  (In (Called sync_playwright_enter None) evs ->
   count is_launch_call evs = 1%nat) /\
  (peak evs [] <= 1)%nat /\
  (forall b, In (Called (new_page b) None) evs ->
     count is_close_call evs = 1%nat) /\
  (r = Val tt -> live evs [] = []).
Proof.
  intros evs r; subst evs r.
  run_script drv (VerifyMainPage.run drv h); settle.
Qed.

Lemma dynamic_sessions (h : history) :
  let evs := events (VerifyDynamicWithdrawal.run drv h) in
  let r := outcome (VerifyDynamicWithdrawal.run drv h) in
  count is_launch_call evs = 1%nat /\
  (peak evs [] <= 1)%nat /\
  (existsb step_failed evs = true ->
   count is_close_call evs = 0%nat /\ live evs [] = [fresh h] /\
   exists e, r = Exc e) /\
  (r = Val tt -> count is_close_call evs = 1%nat /\ live evs [] = []).
Proof.
  intros evs r; subst evs r.
  run_script drv (VerifyDynamicWithdrawal.run drv h); settle; eauto.
Qed.

End Sessions.

(** C2, as the specification states it, fails.  When everything works, one
    invocation of the loop body of verify_main_page_v2.py calls
    [browser.close()] twice, in line 21 and again in the [finally] block;
    when the panel button cannot be clicked, verify_dynamic_withdrawal.py's
    [run] is left without any call of [browser.close()]. *)
Lemma session_closed_once_fails :
  ~ opened_and_closed_once (events (VerifyMainPageV2.attempt all_ok 5173 [])) /\
  ~ opened_and_closed_once (events (VerifyDynamicWithdrawal.run no_panel [])).
Proof. split; intros [_ H]; discriminate H. Qed.

(** C2, amended.  An invocation of the loop body of verify_main_page_v2.py
    and a run of verify_main_page.py call [launch] at most once, exactly
    once when entering Playwright came back, and never have more than one
    browser open, nor has the whole loop; once the page is open
    [browser.close()] is called before control leaves, exactly once when a
    step failed (in verify_main_page.py on every path), and no browser is
    open when the invocation is left other than by an exception.  In
    verify_dynamic_withdrawal.py [run] calls [launch] once and
    [browser.close()] only when every step came back: after a failed step it
    is left by the exception, its browser open and [close] never called. *)
Theorem sessions_released (drv : driver) :
  (forall port h,
     let evs := events (VerifyMainPageV2.attempt drv port h) in
     let r := outcome (VerifyMainPageV2.attempt drv port h) in
     (count is_launch_call evs <= 1)%nat /\
     (In (Called sync_playwright_enter None) evs ->
      count is_launch_call evs = 1%nat) /\
     (peak evs [] <= 1)%nat /\
     (forall b, In (Called (new_page b) None) evs ->
        (1 <= count is_close_call evs)%nat) /\
     (existsb step_failed evs = true -> count is_close_call evs = 1%nat) /\
     (r = Val tt \/ r = Ret -> live evs [] = [])) /\
  (forall ports h,
     (peak (events (VerifyMainPageV2.run_with drv ports h)) [] <= 1)%nat) /\
  (forall h,
     let evs := events (VerifyMainPage.run drv h) in
     let r := outcome (VerifyMainPage.run drv h) in
     (count is_launch_call evs <= 1)%nat /\
     (In (Called sync_playwright_enter None) evs ->
      count is_launch_call evs = 1%nat) /\
     (peak evs [] <= 1)%nat /\
     (forall b, In (Called (new_page b) None) evs ->
        count is_close_call evs = 1%nat) /\
     (r = Val tt -> live evs [] = [])) /\
  (forall h,
     let evs := events (VerifyDynamicWithdrawal.run drv h) in
     let r := outcome (VerifyDynamicWithdrawal.run drv h) in
     count is_launch_call evs = 1%nat /\
     (peak evs [] <= 1)%nat /\
     (existsb step_failed evs = true ->
      count is_close_call evs = 0%nat /\ live evs [] = [fresh h] /\
      exists e, r = Exc e) /\
     (r = Val tt -> count is_close_call evs = 1%nat /\ live evs [] = [])).
Proof.
  split; [|split; [|split]].
  - intros port h. apply attempt_sessions.
  - apply run_with_peak.
  - apply main_page_sessions.
  - apply dynamic_sessions.
Qed.

Lemma sessions_released_witness :
  existsb step_failed (events (VerifyMainPageV2.attempt only_5174 5173 [])) = true /\
  count is_close_call (events (VerifyMainPageV2.attempt only_5174 5173 [])) = 1%nat /\
  In (Called sync_playwright_enter None) (events (VerifyMainPage.run no_heading [])) /\
  count is_launch_call (events (VerifyMainPage.run no_heading [])) = 1%nat /\
  count is_close_call (events (VerifyMainPage.run no_heading [])) = 1%nat /\
  existsb step_failed (events (VerifyDynamicWithdrawal.run no_panel [])) = true /\
  count is_close_call (events (VerifyDynamicWithdrawal.run no_panel [])) = 0%nat.
Proof.
  destruct (sessions_released only_5174) as [Hv2 _].
  destruct (Hv2 5173 []) as (_ & _ & _ & _ & Hclose & _).
  destruct (sessions_released no_heading) as (_ & _ & Hmain & _).
  destruct (Hmain []) as (_ & Hlaunch & _ & Hclosed & _).
  destruct (sessions_released no_panel) as (_ & _ & _ & Hdyn).
  destruct (Hdyn []) as (_ & _ & Hfail & _).
  assert (Hin : In (Called sync_playwright_enter None)
                   (events (VerifyMainPage.run no_heading [])))
    by (vm_compute; auto).
  split; [reflexivity|]. split; [apply Hclose; reflexivity|].
  split; [exact Hin|]. split; [exact (Hlaunch Hin)|].
  split; [apply (Hclosed 0%nat); vm_compute; auto|].
  split; [reflexivity|]. apply Hfail. reflexivity.
Defined.

(** ** Failures: what is caught and what goes on *)
Section Failures.
Variable drv : driver.

(** A failed step of the [try] block reaches the [except] clause, which
    prints it; what leaves an invocation as an exception was raised by the
    session management, outside the [try] block or in [finally]. *)
Lemma attempt_recovers (port : Z) (h : history) :
  let evs := events (VerifyMainPageV2.attempt drv port h) in
  let r := outcome (VerifyMainPageV2.attempt drv port h) in
  (forall c e, is_step c = true -> In (Called c (Some e)) evs ->
     In (Printed (VerifyMainPageV2.could_not port e)) evs /\ r <> Ret) /\
  (forall e, r = Exc e ->
     exists c, is_step c = false /\ In (Called c (Some e)) evs).
Proof.
  intros evs r; subst evs r.
  run_script drv (VerifyMainPageV2.attempt drv port h).
  all: split;
    [ intros c0 ex Hs Hin; pick; try discriminate Hs;
      (split; [cbn; tauto|discriminate])
    | intros ex He;
      first [ discriminate He
            | injection He as <-; eexists; split;
              [|cbn; eauto 20]; reflexivity ] ].
Qed.

Lemma attempt_step_failure_goes_on (port : Z) (h : history) :
  release_ok drv ->
  existsb step_failed (events (VerifyMainPageV2.attempt drv port h)) = true ->
  outcome (VerifyMainPageV2.attempt drv port h) = Val tt.
Proof.
  intros Hr.
  run_script drv (VerifyMainPageV2.attempt drv port h); try absurd_call; settle.
Qed.

(** With a session management that never raises, an invocation either
    captures and returns, or has exactly one failed step, printed. *)
Lemma attempt_managed (port : Z) (h : history) :
  management_ok drv ->
  let evs := events (VerifyMainPageV2.attempt drv port h) in
  let r := outcome (VerifyMainPageV2.attempt drv port h) in
  existsb is_printed evs = true /\
  ((r = Ret /\ screenshots evs = [VerifyMainPageV2.shot_path] /\
    count step_failed evs = 0%nat) \/
   (r = Val tt /\ screenshots evs = [] /\ count step_failed evs = 1%nat /\
    exists e, In (Printed (VerifyMainPageV2.could_not port e)) evs)).
Proof.
  intros Hm evs r; subst evs r.
  run_script drv (VerifyMainPageV2.attempt drv port h); try absurd_call.
  all: cbn; split; [reflexivity|];
    first [left; repeat split; reflexivity | right; repeat split; eauto 20].
Qed.

Lemma run_with_managed (ports : list Z) (h : history) :
  management_ok drv ->
  let evs := events (VerifyMainPageV2.run_with drv ports h) in
  let r := outcome (VerifyMainPageV2.run_with drv ports h) in
  existsb is_printed evs = true /\
  ((r = Ret /\ screenshots evs = [VerifyMainPageV2.shot_path]) \/
   (r = Val tt /\ screenshots evs = [] /\
    count step_failed evs = length ports /\
    (forall p, In p ports ->
       exists e, In (Printed (VerifyMainPageV2.could_not p e)) evs) /\
    exists pre, evs = pre ++ [Printed VerifyMainPageV2.failed_all])).
Proof.
  intros Hm. revert h. induction ports as [|port ports IH]; intros h.
  - split; [reflexivity|]. right. cbn.
    repeat split; [intros p []|now exists []].
  - cbn zeta. rewrite run_with_cons.
    pose proof (attempt_managed port h Hm) as Ha. cbn zeta in Ha.
    destruct (VerifyMainPageV2.attempt drv port h) as [e1 r1].
    unfold events, outcome in Ha; cbn [fst snd] in Ha.
    destruct Ha as [Hpr [(-> & Hs & _)|(-> & Hs & Hc & e & He)]].
    + split; [exact Hpr|]. left. now split.
    + specialize (IH (h ++ e1)). cbn zeta in IH.
      destruct (VerifyMainPageV2.run_with drv ports (h ++ e1)) as [e2 r2].
      unfold events, outcome in *; cbn [fst snd] in *.
      rewrite existsb_app, Hpr, screenshots_app, count_app, Hs, Hc.
      split; [reflexivity|].
      destruct IH as [_ [(-> & Hs2)|(-> & Hs2 & Hc2 & Hp & pre & Hpre)]].
      * left. now split.
      * right. repeat split; [now rewrite Hs2|now rewrite Hc2| |].
        -- intros p [<-|Hin].
           ++ exists e. apply in_or_app. now left.
           ++ destruct (Hp p Hin) as [e' He']. exists e'.
              apply in_or_app. now right.
        -- exists (e1 ++ pre). now rewrite Hpre, app_assoc.
Qed.

(** verify_dynamic_withdrawal.py has no handler: the exception of a failed
    step leaves [run], and the script prints nothing. *)
Lemma dynamic_propagates (h : history) :
  let evs := events (VerifyDynamicWithdrawal.run drv h) in
  let r := outcome (VerifyDynamicWithdrawal.run drv h) in
  count is_printed evs = 0%nat /\
  (forall c e, is_step c = true -> In (Called c (Some e)) evs -> r = Exc e).
Proof.
  intros evs r; subst evs r.
  run_script drv (VerifyDynamicWithdrawal.run drv h).
  all: split; [reflexivity|]; intros c0 ex Hs Hin; pick;
    try discriminate Hs; reflexivity.
Qed.

Lemma dynamic_main_fatal (h : history) :
  let evs := events (VerifyDynamicWithdrawal.main drv h) in
  let r := outcome (VerifyDynamicWithdrawal.main drv h) in
  count is_printed evs = 0%nat /\
  (existsb step_failed evs = true -> exit_status r = 1).
Proof.
  intros evs r; subst evs r.
  run_script drv (VerifyDynamicWithdrawal.main drv h); settle.
Qed.

(** An invocation is left normally only through the [except] clause. *)
Lemma attempt_normal_printed (port : Z) (h : history) :
  outcome (VerifyMainPageV2.attempt drv port h) = Val tt ->
  exists e,
    In (Printed (VerifyMainPageV2.could_not port e))
       (events (VerifyMainPageV2.attempt drv port h)).
Proof.
  run_script drv (VerifyMainPageV2.attempt drv port h).
  all: intros Hr; try discriminate Hr; eexists; cbn; eauto 20.
Qed.

Lemma sessions_all_failed (ports : list Z) (h : history) (evs : list event) :
  sessions drv ports h evs (Val tt) ->
  VerifyMainPageV2.run_with drv ports h =
    (evs ++ [Printed VerifyMainPageV2.failed_all], Val tt) /\
  (forall p, In p ports ->
     exists e, In (Printed (VerifyMainPageV2.could_not p e)) evs).
Proof.
  intros Hs. remember (Val tt) as r eqn:Hr.
  induction Hs as [port h evs r Hatt|port tried h e1 evs r Hatt Hs IH]; subst r.
  - rewrite run_with_cons, Hatt, run_with_nil. split; [reflexivity|].
    intros p [<-|[]]. pose proof (attempt_normal_printed port h) as Hp.
    rewrite Hatt in Hp. now apply Hp.
  - destruct (IH eq_refl) as [Hrun Hprint].
    rewrite run_with_cons, Hatt, Hrun. split; [now rewrite app_assoc|].
    intros p [<-|Hin].
    + pose proof (attempt_normal_printed port h) as Hp. rewrite Hatt in Hp.
      destruct (Hp eq_refl) as [e He]. exists e. apply in_or_app. now left.
    + destruct (Hprint p Hin) as [e He]. exists e. apply in_or_app. now right.
Qed.

(** An exception that leaves the loop was raised by the session management
    of some invocation, never by a step. *)
Lemma run_with_exception_source (ports : list Z) (h : history) (e : exn) :
  outcome (VerifyMainPageV2.run_with drv ports h) = Exc e ->
  exists c, is_step c = false /\
    In (Called c (Some e)) (events (VerifyMainPageV2.run_with drv ports h)).
Proof.
  revert h. induction ports as [|port ports IH]; intros h.
  - intros H. discriminate H.
  - rewrite run_with_cons.
    destruct (attempt_recovers port h) as [_ Hexc].
    destruct (VerifyMainPageV2.attempt drv port h) as [e1 r1].
    unfold events, outcome in *; cbn [fst snd] in *.
    destruct r1 as [[]| |e'].
    + specialize (IH (h ++ e1)).
      destruct (VerifyMainPageV2.run_with drv ports (h ++ e1)) as [e2 r2].
      cbn [fst snd] in *. intros Hr. destruct (IH Hr) as (c & Hc & Hin).
      exists c. split; [exact Hc|]. apply in_or_app. now right.
    + intros H. discriminate H.
    + intros H. injection H as ->. now apply Hexc.
Qed.

End Failures.

Lemma run_managed (drv : driver) (h : history) :
  management_ok drv ->
  outcome (VerifyMainPageV2.run drv h) = Val tt /\
  existsb is_printed (events (VerifyMainPageV2.run drv h)) = true.
Proof.
  intros Hm.
  destruct (run_with_managed drv VerifyMainPageV2.ports_to_try h Hm)
    as [Hpr Hcases].
  unfold VerifyMainPageV2.run, VerifyMainPageV2.run_body, call_fn.
  destruct (VerifyMainPageV2.run_with drv VerifyMainPageV2.ports_to_try h)
    as [evs r].
  unfold events, outcome in *; cbn [fst snd] in *.
  split; [|exact Hpr].
  destruct Hcases as [(-> & _)|(-> & _)]; reflexivity.
Qed.

(** C3, as the specification states it, fails.  verify_dynamic_withdrawal.py
    has no [try]: when the panel button cannot be clicked the exception
    leaves [run] and the script, nothing is printed, and the interpreter ends
    with status 1. *)
Lemma step_failure_not_recovered :
  ~ recovered_locally (VerifyDynamicWithdrawal.main no_panel []) /\
  outcome (VerifyDynamicWithdrawal.main no_panel []) = Exc not_found /\
  exit_status (outcome (VerifyDynamicWithdrawal.main no_panel [])) = 1.
Proof.
  split; [|split; reflexivity].
  intros H. destruct (H eq_refl) as [Hp _]. discriminate Hp.
Qed.

(** C3, amended.  In verify_main_page_v2.py a failed step of the [try] block
    is caught by the [except] clause of its invocation, which prints it with
    the port; the invocation is then not left by [return], and an exception
    that does leave it was raised by the session management, never by a
    step.  When releasing the session does not raise, the invocation is left
    normally and the loop goes on with the ports that remain; when no
    session management call raises, a run with failed steps prints them and
    ends with the status of success.  verify_dynamic_withdrawal.py catches
    nothing: the exception of a failed step leaves [run] and the script,
    which prints nothing and ends with status 1. *)
Theorem step_failures_caught_where_handled (drv : driver) :
  (forall port h,
     let evs := events (VerifyMainPageV2.attempt drv port h) in
     let r := outcome (VerifyMainPageV2.attempt drv port h) in
     (forall c e, is_step c = true -> In (Called c (Some e)) evs ->
        In (Printed (VerifyMainPageV2.could_not port e)) evs /\ r <> Ret) /\
     (forall e, r = Exc e ->
        exists c, is_step c = false /\ In (Called c (Some e)) evs) /\
     (release_ok drv -> existsb step_failed evs = true -> r = Val tt)) /\
  (release_ok drv ->
   forall port ports h,
     let first := VerifyMainPageV2.attempt drv port h in
     let others := VerifyMainPageV2.run_with drv ports (h ++ events first) in
     existsb step_failed (events first) = true ->
     VerifyMainPageV2.run_with drv (port :: ports) h =
       (events first ++ events others, outcome others)) /\
  (management_ok drv ->
   forall h, recovered_locally (VerifyMainPageV2.run drv h)) /\
  (forall h,
     let evs := events (VerifyDynamicWithdrawal.run drv h) in
     let r := outcome (VerifyDynamicWithdrawal.run drv h) in
     count is_printed evs = 0%nat /\
     (forall c e, is_step c = true -> In (Called c (Some e)) evs -> r = Exc e)) /\
  (forall h,
     let evs := events (VerifyDynamicWithdrawal.main drv h) in
     let r := outcome (VerifyDynamicWithdrawal.main drv h) in
     count is_printed evs = 0%nat /\
     (existsb step_failed evs = true -> exit_status r = 1)).
Proof.
  split; [|split; [|split; [|split]]].
  - intros port h evs r; subst evs r.
    destruct (attempt_recovers drv port h) as [Hprint Hexc].
    split; [exact Hprint|]. split; [exact Hexc|].
    intros Hr Hf. now apply attempt_step_failure_goes_on.
  - intros Hr port ports h first others Hf. subst others first.
    rewrite run_with_cons.
    pose proof (attempt_step_failure_goes_on drv port h Hr Hf) as Hout.
    destruct (VerifyMainPageV2.attempt drv port h) as [e1 r1].
    unfold events, outcome in *; cbn [fst snd] in *. subst r1.
    now destruct (VerifyMainPageV2.run_with drv ports (h ++ e1)).
  - intros Hm h _. destruct (run_managed drv h Hm) as [Hout Hpr].
    rewrite Hout, Hpr. now split.
  - apply dynamic_propagates.
  - apply dynamic_main_fatal.
Qed.

Lemma step_failures_caught_where_handled_witness :
  release_ok only_5174 /\
  existsb step_failed (events (VerifyMainPageV2.attempt only_5174 5173 [])) = true /\
  outcome (VerifyMainPageV2.attempt only_5174 5173 []) = Val tt /\
  In (Printed (VerifyMainPageV2.could_not 5173 timeout_error))
     (events (VerifyMainPageV2.attempt only_5174 5173 [])) /\
  management_ok nothing_up /\
  recovered_locally (VerifyMainPageV2.run nothing_up []).
Proof.
  destruct (step_failures_caught_where_handled only_5174) as [Hatt _].
  destruct (Hatt 5173 []) as (Hprint & _ & Hon).
  destruct (step_failures_caught_where_handled nothing_up) as (_ & _ & Hrun & _).
  split; [exact only_5174_release|].
  split; [reflexivity|].
  split; [apply Hon; [exact only_5174_release|reflexivity]|].
  split.
  - apply (Hprint (goto (VerifyMainPageV2.url 5173) (Some 10000)) timeout_error);
      [reflexivity|]. vm_compute. auto 20.
  - split; [exact nothing_up_management|].
    apply Hrun. exact nothing_up_management.
Defined.

(** ** Readiness, capture and exhaustion *)

(** C4. In an invocation of the loop body of verify_main_page_v2.py and in a
    run of verify_main_page.py, whenever a check that something is enabled is
    made (there is one, for the button [Neu berechnen]), the check that the
    heading [Zinseszins-Simulation] is visible was made earlier in the same
    invocation and came back. *)
Theorem readiness_in_declared_order (drv : driver) :
  (forall port h pre l t rc post,
     events (VerifyMainPageV2.attempt drv port h) =
       pre ++ Called (to_be_enabled l t) rc :: post ->
     l = VerifyMainPageV2.button /\
     In (Called (to_be_visible VerifyMainPageV2.heading (Some 10000)) None) pre) /\
  (forall h pre l t rc post,
     events (VerifyMainPage.run drv h) =
       pre ++ Called (to_be_enabled l t) rc :: post ->
     l = VerifyMainPage.button /\
     In (Called (to_be_visible VerifyMainPage.heading (Some 15000)) None) pre).
Proof.
  split.
  - intros port h pre l t rc post.
    run_script drv (VerifyMainPageV2.attempt drv port h).
    all: intros H; walk H;
      (inversion Hhead; split; [reflexivity|cbn; tauto]).
  - intros h pre l t rc post.
    run_script drv (VerifyMainPage.run drv h).
    all: intros H; walk H;
      (inversion Hhead; split; [reflexivity|cbn; tauto]).
Qed.

Lemma readiness_in_declared_order_witness :
  events (VerifyMainPageV2.attempt only_5174 5174 []) =
    [ Called sync_playwright_enter None;
      Called (launch 0%nat (Some true)) None;
      Called (new_page 0%nat) None;
      Printed (VerifyMainPageV2.trying 5174);
      Called (goto (VerifyMainPageV2.url 5174) (Some 10000)) None;
      Called (to_be_visible VerifyMainPageV2.heading (Some 10000)) None ] ++
    Called (to_be_enabled VerifyMainPageV2.button (Some 10000)) None ::
    [ Called (wait_for_timeout 2000) None;
      Called (screenshot of_page VerifyMainPageV2.shot_path) None;
      Printed (VerifyMainPageV2.taken 5174);
      Called (close 0%nat) None;
      Called (close 0%nat) None;
      Called sync_playwright_exit None ] /\
  In (Called (to_be_visible VerifyMainPageV2.heading (Some 10000)) None)
    [ Called sync_playwright_enter None;
      Called (launch 0%nat (Some true)) None;
      Called (new_page 0%nat) None;
      Printed (VerifyMainPageV2.trying 5174);
      Called (goto (VerifyMainPageV2.url 5174) (Some 10000)) None;
      Called (to_be_visible VerifyMainPageV2.heading (Some 10000)) None ].
Proof.
  split; [reflexivity|].
  eapply (proj1 (readiness_in_declared_order only_5174) 5174 []).
  reflexivity.
Defined.

(** C9, as the specification states it, fails.  With a server that answers
    on no port and a fifth browser whose [close] raises, every port of
    [ports_to_try] has a failed step, caught and printed, and nothing is
    captured; but the exception of [browser.close()] in the [finally] block
    of the fifth invocation is caught by nobody: [run] is left by it, the
    overall failure line is never printed and the interpreter ends with
    status 1. *)
Lemma exhaustion_can_raise :
  ~ exhausted_normally (VerifyMainPageV2.run last_close_raises []) /\
  count step_failed (events (VerifyMainPageV2.run last_close_raises [])) = 5%nat /\
  outcome (VerifyMainPageV2.run last_close_raises []) = Exc connection_lost /\
  exit_status (outcome (VerifyMainPageV2.run last_close_raises [])) = 1 /\
  ~ In VerifyMainPageV2.failed_all
      (printed (events (VerifyMainPageV2.run last_close_raises []))).
Proof.
  assert (Hout : outcome (VerifyMainPageV2.run last_close_raises []) =
                 Exc connection_lost) by (vm_compute; reflexivity).
  split; [|split; [vm_compute; reflexivity|split; [exact Hout|split]]].
  - intros H. destruct H as [Hnormal _];
      [vm_compute; reflexivity|vm_compute; reflexivity|].
    rewrite Hout in Hnormal. discriminate Hnormal.
  - rewrite Hout. reflexivity.
  - vm_compute. intuition discriminate.
Qed.

(** C9, amended.  In a run of verify_main_page_v2.py in which the invocation
    for every port of [ports_to_try] was left with its exception caught,
    [run] prints a failure line for each port and the overall failure line
    last, falls off the end of its body and yields [None]: the interpreter
    ends with status 0.  When no session management call raises, [run] never
    raises, ends with status 0 whether a screenshot was captured or not, and
    a run that captured nothing is such a run: every port had exactly one
    failed step, printed with the port.  An exception that does leave [run]
    was raised by a session management call (launching, opening the page,
    closing, entering or leaving Playwright), never by a step. *)
Theorem exhausted_run_returns_normally (drv : driver) (h : history) :
  let evs := events (VerifyMainPageV2.run drv h) in
  (forall tried,
     sessions drv VerifyMainPageV2.ports_to_try h tried (Val tt) ->
     VerifyMainPageV2.run_body drv h =
       (tried ++ [Printed VerifyMainPageV2.failed_all], Val tt) /\
     outcome (VerifyMainPageV2.run drv h) = Val tt /\
     exit_status (outcome (VerifyMainPageV2.run drv h)) = 0 /\
     (forall p, In p VerifyMainPageV2.ports_to_try ->
        exists e, In (Printed (VerifyMainPageV2.could_not p e)) tried)) /\
  (management_ok drv ->
   (outcome (VerifyMainPageV2.run drv h) = Val tt /\
    exit_status (outcome (VerifyMainPageV2.run drv h)) = 0) /\
   (screenshots evs = [] ->
    outcome (VerifyMainPageV2.run_body drv h) = Val tt /\
    count step_failed evs = length VerifyMainPageV2.ports_to_try /\
    (forall p, In p VerifyMainPageV2.ports_to_try ->
       exists e, In (Printed (VerifyMainPageV2.could_not p e)) evs) /\
    exists pre, evs = pre ++ [Printed VerifyMainPageV2.failed_all])) /\
  (forall e,
     outcome (VerifyMainPageV2.run drv h) = Exc e ->
     exists c, is_step c = false /\ In (Called c (Some e)) evs).
Proof.
  intros evs; subst evs. split; [|split].
  - intros tried Hs.
    destruct (sessions_all_failed drv _ _ _ Hs) as [Hrun Hprint].
    unfold VerifyMainPageV2.run, VerifyMainPageV2.run_body, call_fn.
    rewrite Hrun. repeat split. exact Hprint.
  - intros Hm.
    destruct (run_managed drv h Hm) as [Hout _]. rewrite Hout.
    split; [now split|].
    unfold VerifyMainPageV2.run. rewrite call_fn_events.
    unfold VerifyMainPageV2.run_body.
    destruct (run_with_managed drv VerifyMainPageV2.ports_to_try h Hm)
      as [_ [(_ & Hs)|(Hr & _ & Hrest)]]; intros Hnone.
    + rewrite Hs in Hnone. discriminate Hnone.
    + split; [exact Hr|exact Hrest].
  - intros e. unfold VerifyMainPageV2.run. rewrite call_fn_events.
    unfold VerifyMainPageV2.run_body, call_fn, outcome.
    pose proof (run_with_exception_source drv VerifyMainPageV2.ports_to_try h e)
      as Hsrc.
    destruct (VerifyMainPageV2.run_with drv VerifyMainPageV2.ports_to_try h)
      as [evs [[]| |e']]; unfold outcome, events in *; cbn [fst snd] in *;
      intros H; try discriminate H. now apply Hsrc.
Qed.

Lemma exhausted_run_returns_normally_witness :
  (exists tried,
     sessions nothing_up VerifyMainPageV2.ports_to_try [] tried (Val tt) /\
     VerifyMainPageV2.run_body nothing_up [] =
       (tried ++ [Printed VerifyMainPageV2.failed_all], Val tt)) /\
  management_ok nothing_up /\
  screenshots (events (VerifyMainPageV2.run nothing_up [])) = [] /\
  outcome (VerifyMainPageV2.run nothing_up []) = Val tt /\
  exit_status (outcome (VerifyMainPageV2.run nothing_up [])) = 0 /\
  count step_failed (events (VerifyMainPageV2.run nothing_up [])) = 5%nat.
Proof.
  destruct (exhausted_run_returns_normally nothing_up []) as (Hall & Hman & _).
  destruct (Hman nothing_up_management) as [[Hout Hexit] Hex].
  destruct (Hex eq_refl) as (_ & Hcount & _).
  split.
  - assert (Hs : exists tried,
              sessions nothing_up VerifyMainPageV2.ports_to_try [] tried (Val tt)).
    { eexists. unfold VerifyMainPageV2.ports_to_try.
      do 4 (eapply sessions_next; [vm_compute; reflexivity|]).
      apply sessions_last. vm_compute. reflexivity. }
    destruct Hs as [tried Hs]. exists tried. split; [exact Hs|].
    apply (Hall tried Hs).
  - split; [exact nothing_up_management|]. split; [reflexivity|].
    split; [exact Hout|]. split; [exact Hexit|exact Hcount].
Defined.

(** ** Timeouts *)
Section Timeouts.
Variable drv : driver.

Lemma bounded_explicit (limit : Z) (cs : list call) :
  forallb (bounded_by limit) cs = true ->
  forallb (fun c => negb (left_to_default c)) cs = true.
Proof.
  induction cs as [|c cs IH]; [reflexivity|]. cbn [forallb].
  rewrite !andb_true_iff. intros [Hc Hcs]. split; [|now apply IH].
  unfold bounded_by, left_to_default in *.
  destruct (is_suspension c); [|reflexivity].
  destruct (timeout_of c); [reflexivity|discriminate Hc].
Qed.

Lemma attempt_bounded (port : Z) (h : history) :
  forallb (bounded_by 10000)
    (calls (events (VerifyMainPageV2.attempt drv port h))) = true.
Proof. run_script drv (VerifyMainPageV2.attempt drv port h); reflexivity. Qed.

Lemma run_with_bounded (ports : list Z) (h : history) :
  forallb (bounded_by 10000)
    (calls (events (VerifyMainPageV2.run_with drv ports h))) = true.
Proof.
  revert h. induction ports as [|port ports IH]; intros h; [reflexivity|].
  rewrite run_with_cons. pose proof (attempt_bounded port h) as Ha.
  destruct (VerifyMainPageV2.attempt drv port h) as [e1 [[]| |e]];
    unfold events in *; cbn [fst] in *; try exact Ha.
  specialize (IH (h ++ e1)).
  destruct (VerifyMainPageV2.run_with drv ports (h ++ e1)) as [e2 r2].
  cbn [fst] in *. now rewrite calls_app, forallb_app, Ha, IH.
Qed.

Lemma main_page_bounded (h : history) :
  forallb (bounded_by 30000) (calls (events (VerifyMainPage.run drv h))) = true.
Proof. run_script drv (VerifyMainPage.run drv h); reflexivity. Qed.

Lemma dynamic_defaults (h : history) :
  forallb (fun c => negb (is_suspension c) || left_to_default c)
    (calls (events (VerifyDynamicWithdrawal.main drv h))) = true.
Proof. run_script drv (VerifyDynamicWithdrawal.main drv h); reflexivity. Qed.

Lemma fixes_defaults (h : history) :
  forallb (fun c => negb (is_suspension c) || left_to_default c)
    (calls (events (VerifyFixes.test_screenshot drv h))) = true.
Proof. run_script drv (VerifyFixes.test_screenshot drv h); reflexivity. Qed.

End Timeouts.

(** C7, as the specification states it, fails.  When everything works,
    verify_dynamic_withdrawal.py and verify_fixes.py both make a call that
    suspends and passes no timeout: [page.goto] is called with the address
    alone. *)
Lemma suspension_without_timeout :
  ~ explicit_timeouts (events (VerifyDynamicWithdrawal.main all_ok [])) /\
  ~ explicit_timeouts (events (VerifyFixes.test_screenshot all_ok [])) /\
  In (goto "http://localhost:5173/" None)
     (calls (events (VerifyDynamicWithdrawal.main all_ok []))) /\
  In (goto "http://localhost:5173" None)
     (calls (events (VerifyFixes.test_screenshot all_ok []))).
Proof.
  split; [intros H; discriminate H|]. split; [intros H; discriminate H|].
  split; cbn; tauto.
Qed.

(** C7, amended.  In verify_main_page_v2.py and verify_main_page.py every
    suspension point (navigation, each readiness wait, the settling delay)
    passes its bound at the call site: a positive number of milliseconds, at
    most 10000 in the first script and 30000 in the second.  In
    verify_dynamic_withdrawal.py and verify_fixes.py no suspension point
    passes one: each is left to the default of the driver. *)
Theorem timeouts_at_call_sites (drv : driver) :
  (forall ports h,
     let evs := events (VerifyMainPageV2.run_with drv ports h) in
     forallb (bounded_by 10000) (calls evs) = true /\ explicit_timeouts evs) /\
  (forall h,
     let evs := events (VerifyMainPage.run drv h) in
     forallb (bounded_by 30000) (calls evs) = true /\ explicit_timeouts evs) /\
  (forall h,
     forallb (fun c => negb (is_suspension c) || left_to_default c)
       (calls (events (VerifyDynamicWithdrawal.main drv h))) = true) /\
  (forall h,
     forallb (fun c => negb (is_suspension c) || left_to_default c)
       (calls (events (VerifyFixes.test_screenshot drv h))) = true).
Proof.
  split; [|split; [|split]].
  - intros ports h evs; subst evs.
    pose proof (run_with_bounded drv ports h) as Hb.
    split; [exact Hb|]. exact (bounded_explicit _ _ Hb).
  - intros h evs; subst evs.
    pose proof (main_page_bounded drv h) as Hb.
    split; [exact Hb|]. exact (bounded_explicit _ _ Hb).
  - apply dynamic_defaults.
  - apply fixes_defaults.
Qed.

(** ** The two linear scripts *)



(** C10. [test_screenshot] of verify_fixes.py makes no readiness check and no
    interaction, whatever the driver does.  When the navigation to
    [http://localhost:5173] comes back, the call that follows it at once is
    the screenshot of the page to jules-scratch/verification/verification.png,
    and the file is written exactly when that call comes back. *)
Theorem fixes_screenshot_unconditional (drv : driver) (h : history) :
  drv h (goto "http://localhost:5173" None) = None ->
  let evs := events (VerifyFixes.test_screenshot drv h) in
  existsb is_check_or_interaction (calls evs) = false /\
  calls evs = [goto "http://localhost:5173" None;
               screenshot of_page VerifyFixes.shot_path] /\
  exists rs,
    evs = [Called (goto "http://localhost:5173" None) None;
           Called (screenshot of_page VerifyFixes.shot_path) rs] /\
    (rs = None <-> screenshots evs = [VerifyFixes.shot_path]).
Proof.
  intros Hgo evs; subst evs.
  run_script drv (VerifyFixes.test_screenshot drv h); try congruence.
  all: split; [reflexivity|]; split; [reflexivity|];
    eexists; split; [reflexivity|]; cbn; split; congruence.
Qed.

Lemma fixes_screenshot_unconditional_witness :
  all_ok [] (goto "http://localhost:5173" None) = None /\
  screenshots (events (VerifyFixes.test_screenshot all_ok [])) =
    [VerifyFixes.shot_path].
Proof.
  split; [reflexivity|].
  destruct (fixes_screenshot_unconditional all_ok [] eq_refl)
    as (_ & _ & rs & Hevs & Hrs).
  apply Hrs. vm_compute in Hevs. congruence.
Defined.

(** Without the hypothesis on the navigation, [test_screenshot] still makes
    no readiness check and no interaction. *)
Lemma fixes_never_checks (drv : driver) (h : history) :
  existsb is_check_or_interaction
    (calls (events (VerifyFixes.test_screenshot drv h))) = false.
Proof. run_script drv (VerifyFixes.test_screenshot drv h); reflexivity. Qed.

(** ** What the scripts print *)

Lemma taken_not_trying (port : Z) :
  VerifyMainPageV2.taken port <> VerifyMainPageV2.trying port.
Proof.
  unfold VerifyMainPageV2.taken, VerifyMainPageV2.trying. cbn. discriminate.
Qed.

Lemma taken_not_could_not (port : Z) (e : exn) :
  VerifyMainPageV2.taken port <> VerifyMainPageV2.could_not port e.
Proof.
  unfold VerifyMainPageV2.taken, VerifyMainPageV2.could_not. cbn. discriminate.
Qed.

Lemma taken_not_an_error (e : exn) :
  VerifyMainPage.taken <> VerifyMainPage.an_error e.
Proof.
  unfold VerifyMainPage.taken, VerifyMainPage.an_error. cbn. discriminate.
Qed.

(** No line printed other than the success line is equal to it. *)
Ltac not_the_success_line :=
  repeat match goal with
  | H : _ \/ _ |- _ => destruct H
  | H : False |- _ => destruct H
  | H : VerifyMainPageV2.trying _ = VerifyMainPageV2.taken _ |- _ =>
      symmetry in H; destruct (taken_not_trying _ H)
  | H : VerifyMainPageV2.could_not _ _ = VerifyMainPageV2.taken _ |- _ =>
      symmetry in H; destruct (taken_not_could_not _ _ H)
  | H : VerifyMainPage.an_error _ = VerifyMainPage.taken |- _ =>
      symmetry in H; destruct (taken_not_an_error _ H)
  end.

Lemma no_heading_release : release_ok no_heading.
Proof. intros h. split; reflexivity. Qed.

Lemma no_heading_management : management_ok no_heading.
Proof. intros h c Hc. destruct c; try reflexivity; discriminate Hc. Qed.

Section Output.
Variable drv : driver.

Lemma v2_success_line (port : Z) (h : history) :
  let evs := events (VerifyMainPageV2.attempt drv port h) in
  In (VerifyMainPageV2.taken port) (printed evs) <->
  screenshots evs = [VerifyMainPageV2.shot_path].
Proof.
  intros evs; subst evs.
  run_script drv (VerifyMainPageV2.attempt drv port h).
  all: cbn [printed screenshots In]; split;
    [ intros H; not_the_success_line; reflexivity
    | intros H; first [discriminate H | tauto] ].
Qed.

Lemma main_page_success_line (h : history) :
  let evs := events (VerifyMainPage.run drv h) in
  In VerifyMainPage.taken (printed evs) <->
  screenshots evs = [VerifyMainPage.shot_path].
Proof.
  intros evs; subst evs.
  run_script drv (VerifyMainPage.run drv h).
  all: cbn [printed screenshots In]; split;
    [ intros H; not_the_success_line; reflexivity
    | intros H; first [discriminate H | tauto] ].
Qed.

End Output.

(** X1. In verify_main_page.py a failed step (navigation, a readiness wait,
    the settling delay or the capture) is caught by the [except] clause: the
    only line printed is [An error occurred: ] followed by the message of
    that exception, no screenshot is written, [browser.close()] is called
    once, and when releasing the session does not raise [run] yields
    [None]. *)
Theorem main_page_failure_reported (drv : driver) (h : history) (c : call) (e : exn) :
  is_step c = true ->
  In (Called c (Some e)) (events (VerifyMainPage.run drv h)) ->
  let evs := events (VerifyMainPage.run drv h) in
  printed evs = [VerifyMainPage.an_error e] /\
  screenshots evs = [] /\
  count is_close_call evs = 1%nat /\
  (release_ok drv -> outcome (VerifyMainPage.run drv h) = Val tt).
Proof.
  intros Hs.
  run_script drv (VerifyMainPage.run drv h).
  all: intros Hin; pick; try discriminate Hs.
  all: repeat split; intros; try absurd_call.
Qed.

Lemma main_page_failure_reported_witness :
  printed (events (VerifyMainPage.run no_heading [])) =
    [VerifyMainPage.an_error not_visible] /\
  screenshots (events (VerifyMainPage.run no_heading [])) = [] /\
  outcome (VerifyMainPage.run no_heading []) = Val tt.
Proof.
  destruct (main_page_failure_reported no_heading []
              (to_be_visible VerifyMainPage.heading (Some 15000)) not_visible)
    as (Hp & Hs & _ & Hr).
  - reflexivity.
  - vm_compute. auto 20.
  - split; [exact Hp|]. split; [exact Hs|]. exact (Hr no_heading_release).
Defined.

(** X2. The success line tells the truth: an invocation of the loop body of
    verify_main_page_v2.py prints [Screenshot taken successfully on port p.],
    and a run of verify_main_page.py prints [Screenshot taken successfully.],
    if and only if the screenshot was written, whatever the driver does. *)
Theorem success_line_means_screenshot (drv : driver) :
  (forall port h,
     let evs := events (VerifyMainPageV2.attempt drv port h) in
     In (VerifyMainPageV2.taken port) (printed evs) <->
     screenshots evs = [VerifyMainPageV2.shot_path]) /\
  (forall h,
     let evs := events (VerifyMainPage.run drv h) in
     In VerifyMainPage.taken (printed evs) <->
     screenshots evs = [VerifyMainPage.shot_path]).
Proof.
  split.
  - intros port h. apply v2_success_line.
  - intros h. apply main_page_success_line.
Qed.

(** X5. When no session management call raises, [run] of verify_main_page.py
    never raises and the interpreter ends with status 0 on success and on
    failure alike: either every step came back, the screenshot was written
    and the one line printed is the success line, or exactly one step
    failed, nothing was written and the one line printed reports the
    exception that this step raised. *)
Theorem main_page_never_raises (drv : driver) (h : history) :
  management_ok drv ->
  let evs := events (VerifyMainPage.run drv h) in
  outcome (VerifyMainPage.run drv h) = Val tt /\
  exit_status (outcome (VerifyMainPage.run drv h)) = 0 /\
  ((screenshots evs = [VerifyMainPage.shot_path] /\
    printed evs = [VerifyMainPage.taken] /\ count step_failed evs = 0%nat) \/
   (screenshots evs = [] /\ count step_failed evs = 1%nat /\
    exists c e,
      is_step c = true /\ In (Called c (Some e)) evs /\
      printed evs = [VerifyMainPage.an_error e])).
Proof.
  intros Hm.
  run_script drv (VerifyMainPage.run drv h); try absurd_call.
  all: cbn [screenshots printed count filter step_failed is_step length
            exit_status];
    split; [reflexivity|]; split; [reflexivity|];
    first [ left; repeat split; reflexivity
          | right; split; [reflexivity|]; split; [reflexivity|];
            do 2 eexists; split; [|split; [cbn; eauto 20|reflexivity]];
            reflexivity ].
Qed.

Lemma main_page_never_raises_witness :
  management_ok no_heading /\
  outcome (VerifyMainPage.run no_heading []) = Val tt /\
  exit_status (outcome (VerifyMainPage.run no_heading [])) = 0 /\
  printed (events (VerifyMainPage.run no_heading [])) =
    [VerifyMainPage.an_error not_visible].
Proof.
  destruct (main_page_never_raises no_heading [] no_heading_management)
    as (Hout & Hexit & Hcases).
  split; [exact no_heading_management|]. split; [exact Hout|].
  split; [exact Hexit|].
  destruct Hcases as [(Hs & _)|(_ & _ & c & e & _ & Hin & Hp)].
  - vm_compute in Hs. discriminate Hs.
  - rewrite Hp. vm_compute in Hin.
    repeat (destruct Hin as [Hin|Hin]; try discriminate Hin); [|destruct Hin].
    injection Hin as _ <-. reflexivity.
Defined.

(** ** Edges of the loop of verify_main_page_v2.py *)
Section LoopEdges.
Variable drv : driver.

Lemma attempt_capture_not_returned (port : Z) (h : history) :
  let evs := events (VerifyMainPageV2.attempt drv port h) in
  screenshots evs = [VerifyMainPageV2.shot_path] ->
  outcome (VerifyMainPageV2.attempt drv port h) = Val tt ->
  exists b e,
    In (Called (close b) (Some e)) evs /\
    In (Called (close b) None) evs /\
    count is_close_call evs = 2%nat /\
    printed evs =
      [VerifyMainPageV2.trying port; VerifyMainPageV2.taken port;
       VerifyMainPageV2.could_not port e].
Proof.
  run_script drv (VerifyMainPageV2.attempt drv port h).
  all: intros Hs Hr; try discriminate Hs; try discriminate Hr.
  all: do 2 eexists; cbn; repeat split; eauto 20.
Qed.

Lemma attempt_no_browser (port : Z) (h : history) :
  let evs := events (VerifyMainPageV2.attempt drv port h) in
  let r := outcome (VerifyMainPageV2.attempt drv port h) in
  (forall b hl e, In (Called (launch b hl) (Some e)) evs ->
     printed evs = [] /\ count is_close_call evs = 0%nat /\
     live evs [] = [] /\ exists e', r = Exc e') /\
  (forall b e, In (Called (new_page b) (Some e)) evs ->
     printed evs = [] /\ count is_close_call evs = 0%nat /\
     live evs [] = [b] /\ exists e', r = Exc e').
Proof.
  intros evs r; subst evs r.
  run_script drv (VerifyMainPageV2.attempt drv port h).
  all: split; intros; pick; cbn; repeat split; eauto.
Qed.

Lemma attempt_paths (port : Z) (h : history) (p : string) :
  In p (screenshots (events (VerifyMainPageV2.attempt drv port h))) ->
  p = VerifyMainPageV2.shot_path.
Proof.
  run_script drv (VerifyMainPageV2.attempt drv port h).
  all: cbn [screenshots In]; intros H; pick; subst; reflexivity.
Qed.

Lemma attempt_released (port : Z) (h : history) :
  release_ok drv ->
  let evs := events (VerifyMainPageV2.attempt drv port h) in
  let r := outcome (VerifyMainPageV2.attempt drv port h) in
  (r = Ret /\ screenshots evs = [VerifyMainPageV2.shot_path]) \/
  (r <> Ret /\ screenshots evs = []).
Proof.
  intros Hr evs r; subst evs r.
  run_script drv (VerifyMainPageV2.attempt drv port h); try absurd_call.
  all: cbn;
    first [left; split; reflexivity | right; split; [discriminate|reflexivity]].
Qed.

Lemma run_with_paths (ports : list Z) (h : history) (p : string) :
  In p (screenshots (events (VerifyMainPageV2.run_with drv ports h))) ->
  p = VerifyMainPageV2.shot_path.
Proof.
  revert h. induction ports as [|port ports IH]; intros h.
  - intros [].
  - rewrite run_with_cons. pose proof (attempt_paths port h p) as Ha.
    destruct (VerifyMainPageV2.attempt drv port h) as [e1 [[]| |e]];
      unfold events in *; cbn [fst] in *; try exact Ha.
    specialize (IH (h ++ e1)).
    destruct (VerifyMainPageV2.run_with drv ports (h ++ e1)) as [e2 r2].
    cbn [fst] in *. rewrite screenshots_app. intros Hin.
    apply in_app_or in Hin. destruct Hin; auto.
Qed.

Lemma run_with_released (ports : list Z) (h : history) :
  release_ok drv ->
  let evs := events (VerifyMainPageV2.run_with drv ports h) in
  let r := outcome (VerifyMainPageV2.run_with drv ports h) in
  (r = Ret /\ screenshots evs = [VerifyMainPageV2.shot_path]) \/
  (r <> Ret /\ screenshots evs = []).
Proof.
  intros Hr. revert h. induction ports as [|port ports IH]; intros h.
  - right. split; [discriminate|reflexivity].
  - cbn zeta. rewrite run_with_cons.
    pose proof (attempt_released port h Hr) as Ha. cbn zeta in Ha.
    destruct (VerifyMainPageV2.attempt drv port h) as [e1 r1].
    unfold events, outcome in Ha; cbn [fst snd] in Ha.
    destruct Ha as [(-> & Hs)|(Hn & Hs)].
    + left. now split.
    + destruct r1 as [[]| |e]; [|congruence|].
      * specialize (IH (h ++ e1)). cbn zeta in IH.
        destruct (VerifyMainPageV2.run_with drv ports (h ++ e1)) as [e2 r2].
        unfold events, outcome in *; cbn [fst snd] in *.
        rewrite screenshots_app, Hs. exact IH.
      * right. split; [discriminate|exact Hs].
Qed.

End LoopEdges.

(** X3. In verify_main_page_v2.py an invocation of the loop body can write
    the screenshot and still be treated as a failure.  If it wrote the
    screenshot and is left normally, then [browser.close()] raised in line
    21, inside the [try] block: the invocation printed the success line and
    then [Could not connect to port p: ] with the message of that exception,
    called [close] twice, and the loop goes on with the ports that remain. *)
Theorem capture_reported_as_failure
  (drv : driver) (port : Z) (ports : list Z) (h : history) :
  let first := VerifyMainPageV2.attempt drv port h in
  let others := VerifyMainPageV2.run_with drv ports (h ++ events first) in
  screenshots (events first) = [VerifyMainPageV2.shot_path] ->
  outcome first = Val tt ->
  (exists b e,
     In (Called (close b) (Some e)) (events first) /\
     In (Called (close b) None) (events first) /\
     count is_close_call (events first) = 2%nat /\
     printed (events first) =
       [VerifyMainPageV2.trying port; VerifyMainPageV2.taken port;
        VerifyMainPageV2.could_not port e]) /\
  VerifyMainPageV2.run_with drv (port :: ports) h =
    (events first ++ events others, outcome others).
Proof.
  intros first others Hs Hr; subst others first. split.
  - now apply attempt_capture_not_returned.
  - rewrite run_with_cons.
    destruct (VerifyMainPageV2.attempt drv port h) as [e1 r1].
    unfold events, outcome in *; cbn [fst snd] in *. subst r1.
    now destruct (VerifyMainPageV2.run_with drv ports (h ++ e1)).
Qed.

Lemma capture_reported_as_failure_witness :
  screenshots (events (VerifyMainPageV2.attempt close_raises_once 5173 [])) =
    [VerifyMainPageV2.shot_path] /\
  outcome (VerifyMainPageV2.attempt close_raises_once 5173 []) = Val tt /\
  printed (events (VerifyMainPageV2.attempt close_raises_once 5173 [])) =
    [VerifyMainPageV2.trying 5173; VerifyMainPageV2.taken 5173;
     VerifyMainPageV2.could_not 5173 connection_lost] /\
  screenshots
    (events (VerifyMainPageV2.run_with close_raises_once [5173; 5174] [])) =
    [VerifyMainPageV2.shot_path; VerifyMainPageV2.shot_path].
Proof.
  destruct (capture_reported_as_failure close_raises_once 5173 [5174] []
              eq_refl eq_refl) as [_ Hrun].
  split; [reflexivity|]. split; [reflexivity|]. split; [reflexivity|].
  rewrite Hrun. reflexivity.
Defined.

(** X4. In verify_main_page_v2.py the browser is launched and the page
    opened outside the [try] block.  When [launch] or [new_page] raises for
    some port, nothing is printed, [browser.close()] is never called (after
    a failed [new_page] the browser stays open), the exception leaves the
    loop body, and the run ends there: the ports that remain are never
    tried. *)
Theorem launch_failure_aborts_run
  (drv : driver) (port : Z) (ports : list Z) (h : history) :
  let evs := events (VerifyMainPageV2.attempt drv port h) in
  (forall b hl e, In (Called (launch b hl) (Some e)) evs ->
     printed evs = [] /\ count is_close_call evs = 0%nat /\
     live evs [] = [] /\
     exists e', VerifyMainPageV2.run_with drv (port :: ports) h = (evs, Exc e')) /\
  (forall b e, In (Called (new_page b) (Some e)) evs ->
     printed evs = [] /\ count is_close_call evs = 0%nat /\
     live evs [] = [b] /\
     exists e', VerifyMainPageV2.run_with drv (port :: ports) h = (evs, Exc e')).
Proof.
  intros evs; subst evs.
  destruct (attempt_no_browser drv port h) as [Hl Hp].
  rewrite run_with_cons.
  destruct (VerifyMainPageV2.attempt drv port h) as [e1 r1].
  unfold events, outcome in *; cbn [fst snd] in *.
  split.
  - intros b hl e Hin. destruct (Hl b hl e Hin) as (H1 & H2 & H3 & e' & ->).
    repeat split; try assumption. now exists e'.
  - intros b e Hin. destruct (Hp b e Hin) as (H1 & H2 & H3 & e' & ->).
    repeat split; try assumption. now exists e'.
Qed.

Lemma launch_failure_aborts_run_witness :
  (exists e',
     VerifyMainPageV2.run_with no_browser [5173; 5174] [] =
       ([Called sync_playwright_enter None;
         Called (launch 0%nat (Some true)) (Some no_executable);
         Called sync_playwright_exit None], Exc e')) /\
  live (events (VerifyMainPageV2.attempt no_page 5173 [])) [] = [0%nat].
Proof.
  destruct (launch_failure_aborts_run no_browser 5173 [5174] []) as [Hl _].
  destruct (Hl 0%nat (Some true) no_executable) as (_ & _ & _ & e' & Hrun);
    [vm_compute; auto|].
  destruct (launch_failure_aborts_run no_page 5173 [] []) as [_ Hp].
  destruct (Hp 0%nat connection_lost) as (_ & _ & Hlive & _);
    [vm_compute; auto|].
  split; [|exact Hlive]. exists e'. rewrite Hrun. reflexivity.
Defined.

(** X6. Every screenshot a run of verify_main_page_v2.py writes goes to
    jules-scratch/verification/verification.png.  When releasing the session
    does not raise, a run over any list of ports writes at most one: exactly
    one when the loop is left by [return], none otherwise. *)
Theorem run_writes_at_most_one_screenshot (drv : driver) :
  (forall ports h p,
     In p (screenshots (events (VerifyMainPageV2.run_with drv ports h))) ->
     p = VerifyMainPageV2.shot_path) /\
  (release_ok drv ->
   forall ports h,
     let evs := events (VerifyMainPageV2.run_with drv ports h) in
     let r := outcome (VerifyMainPageV2.run_with drv ports h) in
     (r = Ret /\ screenshots evs = [VerifyMainPageV2.shot_path]) \/
     (r <> Ret /\ screenshots evs = [])).
Proof.
  split.
  - intros ports h p. apply run_with_paths.
  - intros Hr ports h. now apply run_with_released.
Qed.

Lemma run_writes_at_most_one_screenshot_witness :
  release_ok only_5174 /\
  screenshots
    (events (VerifyMainPageV2.run_with only_5174 VerifyMainPageV2.ports_to_try [])) =
    [VerifyMainPageV2.shot_path] /\
  outcome (VerifyMainPageV2.run_with only_5174 VerifyMainPageV2.ports_to_try []) = Ret.
Proof.
  destruct (run_writes_at_most_one_screenshot only_5174) as [_ Hone].
  split; [exact only_5174_release|].
  destruct (Hone only_5174_release VerifyMainPageV2.ports_to_try [])
    as [(Hr & Hs)|(Hr & Hs)].
  - split; [exact Hs|exact Hr].
  - exfalso. apply Hr. reflexivity.
Defined.

(** ** Waiting time, the [with] block, and verify_fixes.py *)
Section Bounds.
Variable drv : driver.

Lemma total_timeout_app (e1 e2 : list event) :
  total_timeout (e1 ++ e2) = total_timeout e1 + total_timeout e2.
Proof.
  induction e1 as [|[c r|line] e1 IH]; cbn [app total_timeout]; lia.
Qed.

Lemma attempt_total_timeout (port : Z) (h : history) :
  0 <= total_timeout (events (VerifyMainPageV2.attempt drv port h)) <= 32000.
Proof. run_script drv (VerifyMainPageV2.attempt drv port h); cbn; lia. Qed.

Lemma run_with_total_timeout (ports : list Z) (h : history) :
  0 <= total_timeout (events (VerifyMainPageV2.run_with drv ports h))
    <= 32000 * Z.of_nat (length ports).
Proof.
  revert h. induction ports as [|port ports IH]; intros h.
  - cbn. lia.
  - rewrite run_with_cons. pose proof (attempt_total_timeout port h) as Ha.
    destruct (VerifyMainPageV2.attempt drv port h) as [e1 [[]| |e]];
      unfold events in *; cbn [fst length] in *; try lia.
    specialize (IH (h ++ e1)).
    destruct (VerifyMainPageV2.run_with drv ports (h ++ e1)) as [e2 r2].
    cbn [fst] in *. rewrite total_timeout_app. lia.
Qed.

Lemma main_page_total_timeout (h : history) :
  0 <= total_timeout (events (VerifyMainPage.run drv h)) <= 62000.
Proof. run_script drv (VerifyMainPage.run drv h); cbn; lia. Qed.

Lemma attempt_stops_playwright (port : Z) (h : history) :
  let evs := events (VerifyMainPageV2.attempt drv port h) in
  let r := outcome (VerifyMainPageV2.attempt drv port h) in
  (forall e, drv h sync_playwright_enter = Some e ->
     evs = [Called sync_playwright_enter (Some e)] /\ r = Exc e) /\
  (drv h sync_playwright_enter = None ->
   count is_exit_call evs = 1%nat /\
   exists rx, last evs (Printed "") = Called sync_playwright_exit rx) /\
  (forall e, In (Called sync_playwright_exit (Some e)) evs -> r = Exc e).
Proof.
  intros evs r; subst evs r.
  run_script drv (VerifyMainPageV2.attempt drv port h).
  all: repeat split; intros; try congruence; pick; cbn; eauto.
Qed.

Lemma main_page_stops_playwright (h : history) :
  let evs := events (VerifyMainPage.run drv h) in
  let r := outcome (VerifyMainPage.run drv h) in
  (forall e, drv h sync_playwright_enter = Some e ->
     evs = [Called sync_playwright_enter (Some e)] /\ r = Exc e) /\
  (drv h sync_playwright_enter = None ->
   count is_exit_call evs = 1%nat /\
   exists rx, last evs (Printed "") = Called sync_playwright_exit rx) /\
  (forall e, In (Called sync_playwright_exit (Some e)) evs -> r = Exc e).
Proof.
  intros evs r; subst evs r.
  run_script drv (VerifyMainPage.run drv h).
  all: repeat split; intros; try congruence; pick; cbn; eauto.
Qed.

Lemma dynamic_main_stops_playwright (h : history) :
  let evs := events (VerifyDynamicWithdrawal.main drv h) in
  let r := outcome (VerifyDynamicWithdrawal.main drv h) in
  (forall e, drv h sync_playwright_enter = Some e ->
     evs = [Called sync_playwright_enter (Some e)] /\ r = Exc e) /\
  (drv h sync_playwright_enter = None ->
   count is_exit_call evs = 1%nat /\
   exists rx, last evs (Printed "") = Called sync_playwright_exit rx) /\
  (forall e, In (Called sync_playwright_exit (Some e)) evs -> r = Exc e).
Proof.
  intros evs r; subst evs r.
  run_script drv (VerifyDynamicWithdrawal.main drv h).
  all: repeat split; intros; try congruence; pick; cbn; eauto.
Qed.

End Bounds.

(** X7. The timeouts that verify_main_page_v2.py passes at its call sites
    add up to at most 32000 ms for one invocation of the loop body, so to at
    most 32000 ms for each port of the list over a whole run, which is
    160000 ms for [ports_to_try]; those of verify_main_page.py add up to at
    most 62000 ms. *)
Theorem waiting_time_bounded (drv : driver) :
  (forall port h,
     0 <= total_timeout (events (VerifyMainPageV2.attempt drv port h)) <= 32000) /\
  (forall ports h,
     0 <= total_timeout (events (VerifyMainPageV2.run_with drv ports h))
       <= 32000 * Z.of_nat (length ports)) /\
  (forall h,
     0 <= total_timeout (events (VerifyMainPageV2.run drv h)) <= 160000) /\
  (forall h,
     0 <= total_timeout (events (VerifyMainPage.run drv h)) <= 62000).
Proof.
  split; [|split; [|split]].
  - intros port h. apply attempt_total_timeout.
  - intros ports h. apply run_with_total_timeout.
  - intros h. unfold VerifyMainPageV2.run. rewrite call_fn_events.
    unfold VerifyMainPageV2.run_body.
    pose proof (run_with_total_timeout drv VerifyMainPageV2.ports_to_try h) as H.
    cbn [VerifyMainPageV2.ports_to_try length] in H. lia.
  - intros h. apply main_page_total_timeout.
Qed.

(** X8. Each of the three scripts that run inside [with sync_playwright()]
    (the loop body of verify_main_page_v2.py, [run] of verify_main_page.py,
    and verify_dynamic_withdrawal.py as a whole) leaves Playwright exactly
    once whenever entering it came back, as the last thing it does, also when
    a step failed and, in verify_dynamic_withdrawal.py, [browser.close()] was
    skipped.  When entering raises nothing else is done and that exception
    goes on; an exception raised on leaving replaces whatever was going on. *)
Theorem playwright_always_stopped (drv : driver) (h : history) :
  (forall port,
     let evs := events (VerifyMainPageV2.attempt drv port h) in
     let r := outcome (VerifyMainPageV2.attempt drv port h) in
     (forall e, drv h sync_playwright_enter = Some e ->
        evs = [Called sync_playwright_enter (Some e)] /\ r = Exc e) /\
     (drv h sync_playwright_enter = None ->
      count is_exit_call evs = 1%nat /\
      exists rx, last evs (Printed "") = Called sync_playwright_exit rx) /\
     (forall e, In (Called sync_playwright_exit (Some e)) evs -> r = Exc e)) /\
  (let evs := events (VerifyMainPage.run drv h) in
   let r := outcome (VerifyMainPage.run drv h) in
   (forall e, drv h sync_playwright_enter = Some e ->
      evs = [Called sync_playwright_enter (Some e)] /\ r = Exc e) /\
   (drv h sync_playwright_enter = None ->
    count is_exit_call evs = 1%nat /\
    exists rx, last evs (Printed "") = Called sync_playwright_exit rx) /\
   (forall e, In (Called sync_playwright_exit (Some e)) evs -> r = Exc e)) /\
  (let evs := events (VerifyDynamicWithdrawal.main drv h) in
   let r := outcome (VerifyDynamicWithdrawal.main drv h) in
   (forall e, drv h sync_playwright_enter = Some e ->
      evs = [Called sync_playwright_enter (Some e)] /\ r = Exc e) /\
   (drv h sync_playwright_enter = None ->
    count is_exit_call evs = 1%nat /\
    exists rx, last evs (Printed "") = Called sync_playwright_exit rx) /\
   (forall e, In (Called sync_playwright_exit (Some e)) evs -> r = Exc e)).
Proof.
  split; [|split].
  - intros port. apply attempt_stops_playwright.
  - apply main_page_stops_playwright.
  - apply dynamic_main_stops_playwright.
Qed.

Lemma playwright_always_stopped_witness :
  no_panel [] sync_playwright_enter = None /\
  existsb step_failed (events (VerifyDynamicWithdrawal.main no_panel [])) = true /\
  count is_close_call (events (VerifyDynamicWithdrawal.main no_panel [])) = 0%nat /\
  count is_exit_call (events (VerifyDynamicWithdrawal.main no_panel [])) = 1%nat.
Proof.
  destruct (playwright_always_stopped no_panel []) as (_ & _ & _ & Hexit & _).
  destruct (Hexit eq_refl) as [Hone _].
  split; [reflexivity|]. split; [reflexivity|]. split; [reflexivity|exact Hone].
Defined.

(** X9. In verify_fixes.py nothing is caught: when a call of
    [test_screenshot] raises, the test is left by that very exception and no
    screenshot is written; when it is the navigation that raises, the
    screenshot call is not even made. *)
Theorem fixes_failure_propagates
  (drv : driver) (h : history) (c : call) (e : exn) :
  In (Called c (Some e)) (events (VerifyFixes.test_screenshot drv h)) ->
  outcome (VerifyFixes.test_screenshot drv h) = Exc e /\
  screenshots (events (VerifyFixes.test_screenshot drv h)) = [] /\
  (is_goto c = true ->
   events (VerifyFixes.test_screenshot drv h) = [Called c (Some e)]).
Proof.
  run_script drv (VerifyFixes.test_screenshot drv h).
  all: intros Hin; pick; repeat split; intros; try discriminate; reflexivity.
Qed.

Lemma fixes_failure_propagates_witness :
  In (Called (goto "http://localhost:5173" None) (Some timeout_error))
     (events (VerifyFixes.test_screenshot no_server [])) /\
  VerifyFixes.test_screenshot no_server [] =
    ([Called (goto "http://localhost:5173" None) (Some timeout_error)],
     Exc timeout_error).
Proof.
  assert (Hin : In (Called (goto "http://localhost:5173" None) (Some timeout_error))
                   (events (VerifyFixes.test_screenshot no_server [])))
    by (vm_compute; auto).
  split; [exact Hin|].
  destruct (fixes_failure_propagates no_server [] _ _ Hin) as (Hout & _ & Hevs).
  specialize (Hevs eq_refl).
  destruct (VerifyFixes.test_screenshot no_server []) as [evs r].
  unfold events, outcome in *; cbn [fst snd] in *. now subst.
Defined.

(** X10. verify_dynamic_withdrawal.py ends with the status of success if and
    only if none of its calls raised, and then the screenshot of the panel
    element was written to
    jules-scratch/verification/dynamic_withdrawal_ui.png and
    [browser.close()] was called once: unlike the two main-page scripts, its
    exit status tells success from failure. *)
Theorem dynamic_exit_status_reliable (drv : driver) (h : history) :
  let evs := events (VerifyDynamicWithdrawal.main drv h) in
  let r := outcome (VerifyDynamicWithdrawal.main drv h) in
  (exit_status r = 0 <-> existsb raised evs = false) /\
  (exit_status r = 0 ->
   screenshots evs = [VerifyDynamicWithdrawal.shot_path] /\
   In (Called (screenshot (of_locator VerifyDynamicWithdrawal.entnahme_panel)
                 VerifyDynamicWithdrawal.shot_path) None) evs /\
   count is_close_call evs = 1%nat).
Proof.
  intros evs r; subst evs r.
  run_script drv (VerifyDynamicWithdrawal.main drv h).
  all: cbn; repeat split; intros; try discriminate; try reflexivity; tauto.
Qed.

Lemma dynamic_exit_status_reliable_witness :
  exit_status (outcome (VerifyDynamicWithdrawal.main all_ok [])) = 0 /\
  screenshots (events (VerifyDynamicWithdrawal.main all_ok [])) =
    [VerifyDynamicWithdrawal.shot_path] /\
  exit_status (outcome (VerifyDynamicWithdrawal.main no_panel_text [])) = 1.
Proof.
  destruct (dynamic_exit_status_reliable all_ok []) as [_ Hok].
  destruct (Hok eq_refl) as (Hs & _).
  split; [reflexivity|]. split; [exact Hs|reflexivity].
Defined.

(** ** Capturing, returning and stopping *)
Section Capture.
Variable drv : driver.

(** An invocation none of whose calls raises captures and returns. *)
Lemma attempt_clean (port : Z) (h : history) :
  existsb raised (events (VerifyMainPageV2.attempt drv port h)) = false ->
  outcome (VerifyMainPageV2.attempt drv port h) = Ret /\
  screenshots (events (VerifyMainPageV2.attempt drv port h)) =
    [VerifyMainPageV2.shot_path].
Proof.
  run_script drv (VerifyMainPageV2.attempt drv port h).
  all: cbn; intros H; try discriminate H; split; reflexivity.
Qed.

Lemma attempt_return_written (port : Z) (h : history) :
  outcome (VerifyMainPageV2.attempt drv port h) = Ret ->
  screenshots (events (VerifyMainPageV2.attempt drv port h)) =
    [VerifyMainPageV2.shot_path].
Proof.
  run_script drv (VerifyMainPageV2.attempt drv port h).
  all: cbn; intros H; try discriminate H; reflexivity.
Qed.





Lemma attempt_capture (port : Z) (h : history) :
  let evs := events (VerifyMainPageV2.attempt drv port h) in
  let r := outcome (VerifyMainPageV2.attempt drv port h) in
  (existsb step_failed evs = true -> screenshots evs = [] /\ r <> Ret) /\
  (forall b, In (Called (new_page b) None) evs ->
     existsb step_failed evs = false ->
     In (Called (screenshot of_page VerifyMainPageV2.shot_path) None) evs /\
     screenshots evs = [VerifyMainPageV2.shot_path]) /\
  (screenshots evs = [VerifyMainPageV2.shot_path] <->
   forall c, In c (declared_steps port) -> In (Called c None) evs) /\
  (release_ok drv ->
   (r = Ret <-> screenshots evs = [VerifyMainPageV2.shot_path])).
Proof.
  intros evs r; subst evs r.
  run_script drv (VerifyMainPageV2.attempt drv port h).
  all: split; [settle|].
  all: split;
    [ intros b Hin Hf; cbn in Hf; try discriminate Hf; pick; cbn;
      (split; [tauto|reflexivity])
    |].
  all: split; [|settle; absurd_call].
  all: cbn [screenshots]; split;
    [ intros Hs;
      first [ discriminate Hs
            | intros c Hc; unfold declared_steps in Hc; pick; subst;
              cbn; tauto ]
    | intros Hall; try reflexivity;
      specialize (Hall (screenshot of_page VerifyMainPageV2.shot_path));
      cbn in Hall; exfalso; intuition discriminate ].
Qed.

End Capture.




(** C5, as the specification states it, fails.  When the first
    [browser.close()] raises, the invocation for port 5173 writes the
    screenshot and is nevertheless not left by [return]: the [except] clause
    takes it for a failure and the invocation is left normally. *)
Lemma written_but_not_captured :
  ~ captured_iff_written (VerifyMainPageV2.attempt close_raises_once 5173 []) /\
  screenshots (events (VerifyMainPageV2.attempt close_raises_once 5173 [])) =
    [VerifyMainPageV2.shot_path] /\
  outcome (VerifyMainPageV2.attempt close_raises_once 5173 []) = Val tt.
Proof.
  split; [|split; vm_compute; reflexivity].
  intros [_ H]. specialize (H eq_refl). vm_compute in H. discriminate H.
Qed.

(** C5, amended.  An invocation of the loop body of verify_main_page_v2.py
    that is left by [return] (the outcome Captured) has written the
    screenshot to the configured path.  If any step failed, nothing was
    written and the invocation is not left by [return]; once the page is
    open, if no step fails the screenshot call is made and the screenshot
    written; an invocation none of whose calls raises writes it and returns.
    The screenshot is written exactly when every step of the [try] block
    came back.  When releasing the session does not raise, the invocation
    is left by [return] if and only if it wrote the screenshot. *)
Theorem screenshot_when_captured (drv : driver) (port : Z) (h : history) :
  let evs := events (VerifyMainPageV2.attempt drv port h) in
  let r := outcome (VerifyMainPageV2.attempt drv port h) in
  (r = Ret -> screenshots evs = [VerifyMainPageV2.shot_path]) /\
  (existsb step_failed evs = true -> screenshots evs = [] /\ r <> Ret) /\
  (forall b, In (Called (new_page b) None) evs ->
     existsb step_failed evs = false ->
     In (Called (screenshot of_page VerifyMainPageV2.shot_path) None) evs /\
     screenshots evs = [VerifyMainPageV2.shot_path]) /\
  (existsb raised evs = false ->
   r = Ret /\ screenshots evs = [VerifyMainPageV2.shot_path]) /\
  (screenshots evs = [VerifyMainPageV2.shot_path] <->
   forall c, In c (declared_steps port) -> In (Called c None) evs) /\
  (release_ok drv ->
   (r = Ret <-> screenshots evs = [VerifyMainPageV2.shot_path])).
Proof.
  intros evs r; subst evs r.
  destruct (attempt_capture drv port h) as (Hfail & Hopen & Hsteps & Hrel).
  split; [apply attempt_return_written|].
  split; [exact Hfail|]. split; [exact Hopen|].
  split; [apply attempt_clean|]. split; [exact Hsteps|exact Hrel].
Qed.

Lemma screenshot_when_captured_witness :
  existsb raised (events (VerifyMainPageV2.attempt only_5174 5174 [])) = false /\
  outcome (VerifyMainPageV2.attempt only_5174 5174 []) = Ret /\
  screenshots (events (VerifyMainPageV2.attempt only_5174 5174 [])) =
    [VerifyMainPageV2.shot_path] /\
  existsb step_failed (events (VerifyMainPageV2.attempt only_5174 5173 [])) = true /\
  screenshots (events (VerifyMainPageV2.attempt only_5174 5173 [])) = [] /\
  release_ok only_5174 /\
  (outcome (VerifyMainPageV2.attempt only_5174 5173 []) = Ret <->
   screenshots (events (VerifyMainPageV2.attempt only_5174 5173 [])) =
     [VerifyMainPageV2.shot_path]).
Proof.
  destruct (screenshot_when_captured only_5174 5174 [])
    as (_ & _ & _ & Hclean & _).
  destruct (Hclean eq_refl) as [Hret Hshot].
  destruct (screenshot_when_captured only_5174 5173 [])
    as (_ & Hfail & _ & _ & _ & Hrel).
  destruct (Hfail eq_refl) as [Hnone _].
  split; [reflexivity|]. split; [exact Hret|]. split; [exact Hshot|].
  split; [reflexivity|]. split; [exact Hnone|].
  split; [exact only_5174_release|]. exact (Hrel only_5174_release).
Defined.
